(** * tinyIRremote (ATtiny13A, NEC protocol, 5 buttons)

    A shallow embedding of [software/NEC_5_buttons/main.c].

    The firmware only acts on the I/O registers of the controller and
    on time (busy-wait delays and the power-down sleep), so the state
    that is threaded through every operation consists of the registers
    the source writes, a clock counting the microseconds that were
    programmed into [_delay_us]/[_delay_ms] or spent asleep, and the
    waveform that those delays left on the IR pin.  Instruction
    overhead between two delays is not part of the model: the source
    calls its delay constants "compensated timings" for that reason. *)

From Stdlib Require Import ZArith List Bool Lia.
Import ListNotations.
Local Open Scope Z_scope.

(** ** Compile-time constants *)

(** IR codes *)
Definition ADDR : Z := 0x04.  (* Address of LG TV *)
Definition KEY1 : Z := 0x02.  (* Volume+ *)
Definition KEY2 : Z := 0x00.  (* Channel+ *)
Definition KEY3 : Z := 0x03.  (* Volume- *)
Definition KEY4 : Z := 0x01.  (* Channel- *)
Definition KEY5 : Z := 0x08.  (* Power *)

(** values for 38kHz PWM frequency and 25% duty cycle *)
Definition TOP  : Z := 31.
Definition DUTY : Z := 7.

(** Conversion of a C [int] to [uint8_t]. *)
Definition uint8 (x : Z) : Z := x mod 256.

(** ** Machine state *)

(** The sleep modes [set_sleep_mode] can select. *)
Inductive sleep_kind := SLEEP_MODE_IDLE | SLEEP_MODE_ADC | SLEEP_MODE_PWR_DOWN.

(** The I/O registers written by [main]. *)
Record regs := mkRegs {
  DDRB : Z; PORTB : Z;
  TCCR0A : Z; TCCR0B : Z; OCR0A : Z; OCR0B : Z;
  GIMSK : Z; PCMSK : Z; SREG : Z;
  ADCSRA : Z; ACSR : Z; PRR : Z;
  sleep_sel : sleep_kind
}.

(** One stretch of the output waveform: is the 38 kHz carrier routed to
    the LED, and for how many microseconds. *)
Definition seg : Type := bool * Z.

Record mcu := mkMcu {
  io   : regs;
  now  : Z;          (* microseconds since reset *)
  wave : list seg    (* what the IR pin did so far, oldest first *)
}.

(** A statement of the program. *)
Definition cmd : Type := mcu -> mcu.

Definition seq_cmd (c1 c2 : cmd) : cmd := fun s => c2 (c1 s).
Notation "c1 ;; c2" := (seq_cmd c1 c2) (at level 61, left associativity).

Definition skip : cmd := fun s => s.

Definition with_io (f : regs -> regs) : cmd :=
  fun s => mkMcu (f (io s)) (now s) (wave s).

Definition set_DDRB (v : Z) (r : regs) : regs :=
  mkRegs v (PORTB r) (TCCR0A r) (TCCR0B r) (OCR0A r) (OCR0B r)
         (GIMSK r) (PCMSK r) (SREG r) (ADCSRA r) (ACSR r) (PRR r) (sleep_sel r).
Definition set_PORTB (v : Z) (r : regs) : regs :=
  mkRegs (DDRB r) v (TCCR0A r) (TCCR0B r) (OCR0A r) (OCR0B r)
         (GIMSK r) (PCMSK r) (SREG r) (ADCSRA r) (ACSR r) (PRR r) (sleep_sel r).
Definition set_TCCR0A (v : Z) (r : regs) : regs :=
  mkRegs (DDRB r) (PORTB r) v (TCCR0B r) (OCR0A r) (OCR0B r)
         (GIMSK r) (PCMSK r) (SREG r) (ADCSRA r) (ACSR r) (PRR r) (sleep_sel r).
Definition set_TCCR0B (v : Z) (r : regs) : regs :=
  mkRegs (DDRB r) (PORTB r) (TCCR0A r) v (OCR0A r) (OCR0B r)
         (GIMSK r) (PCMSK r) (SREG r) (ADCSRA r) (ACSR r) (PRR r) (sleep_sel r).
Definition set_OCR0A (v : Z) (r : regs) : regs :=
  mkRegs (DDRB r) (PORTB r) (TCCR0A r) (TCCR0B r) v (OCR0B r)
         (GIMSK r) (PCMSK r) (SREG r) (ADCSRA r) (ACSR r) (PRR r) (sleep_sel r).
Definition set_OCR0B (v : Z) (r : regs) : regs :=
  mkRegs (DDRB r) (PORTB r) (TCCR0A r) (TCCR0B r) (OCR0A r) v
         (GIMSK r) (PCMSK r) (SREG r) (ADCSRA r) (ACSR r) (PRR r) (sleep_sel r).
Definition set_GIMSK (v : Z) (r : regs) : regs :=
  mkRegs (DDRB r) (PORTB r) (TCCR0A r) (TCCR0B r) (OCR0A r) (OCR0B r)
         v (PCMSK r) (SREG r) (ADCSRA r) (ACSR r) (PRR r) (sleep_sel r).
Definition set_PCMSK (v : Z) (r : regs) : regs :=
  mkRegs (DDRB r) (PORTB r) (TCCR0A r) (TCCR0B r) (OCR0A r) (OCR0B r)
         (GIMSK r) v (SREG r) (ADCSRA r) (ACSR r) (PRR r) (sleep_sel r).
Definition set_SREG (v : Z) (r : regs) : regs :=
  mkRegs (DDRB r) (PORTB r) (TCCR0A r) (TCCR0B r) (OCR0A r) (OCR0B r)
         (GIMSK r) (PCMSK r) v (ADCSRA r) (ACSR r) (PRR r) (sleep_sel r).
Definition set_ADCSRA (v : Z) (r : regs) : regs :=
  mkRegs (DDRB r) (PORTB r) (TCCR0A r) (TCCR0B r) (OCR0A r) (OCR0B r)
         (GIMSK r) (PCMSK r) (SREG r) v (ACSR r) (PRR r) (sleep_sel r).
Definition set_ACSR (v : Z) (r : regs) : regs :=
  mkRegs (DDRB r) (PORTB r) (TCCR0A r) (TCCR0B r) (OCR0A r) (OCR0B r)
         (GIMSK r) (PCMSK r) (SREG r) (ADCSRA r) v (PRR r) (sleep_sel r).
Definition set_PRR (v : Z) (r : regs) : regs :=
  mkRegs (DDRB r) (PORTB r) (TCCR0A r) (TCCR0B r) (OCR0A r) (OCR0B r)
         (GIMSK r) (PCMSK r) (SREG r) (ADCSRA r) (ACSR r) v (sleep_sel r).
Definition set_sleep_sel (k : sleep_kind) (r : regs) : regs :=
  mkRegs (DDRB r) (PORTB r) (TCCR0A r) (TCCR0B r) (OCR0A r) (OCR0B r)
         (GIMSK r) (PCMSK r) (SREG r) (ADCSRA r) (ACSR r) (PRR r) k.

(** The LED emits the carrier exactly while PB1 is an output, since
    OC0B drives that pin with the PWM signal of timer 0. *)
Definition lit (s : mcu) : bool := Z.testbit (DDRB (io s)) 1.

(** ** Macros of the source *)

(** [#define IRon()   DDRB |= 0b00000010] *)
Definition IRon : cmd :=
  with_io (fun r => set_DDRB (Z.lor (DDRB r) 0x02) r).

(** [#define IRoff()  DDRB &= 0b11111101] *)
Definition IRoff : cmd :=
  with_io (fun r => set_DDRB (Z.land (DDRB r) 0xFD) r).

(** A busy wait leaves the pin as it is for [us] microseconds. *)
Definition _delay_us (us : Z) : cmd :=
  fun s => mkMcu (io s) (now s + us) (wave s ++ [(lit s, us)]).

Definition _delay_ms (ms : Z) : cmd := _delay_us (1000 * ms).

Definition startPulse  : cmd := IRon ;; _delay_us 9000 ;; IRoff ;; _delay_us 4500.
Definition repeatPulse : cmd := IRon ;; _delay_us 9000 ;; IRoff ;; _delay_us 2250.
Definition normalPulse : cmd := IRon ;; _delay_us 562 ;; IRoff ;; _delay_us 557.
Definition bit1Pause   : cmd := _delay_us 1120.
Definition repeatCode  : cmd :=
  _delay_ms 40 ;; repeatPulse ;; normalPulse ;; _delay_ms 56.

(** ** Sending a byte and a frame *)

(** [for (uint8_t i=8; i; i--, value>>=1)]: the counter [i] only takes
    the values 8, 7, ..., 0, so its decrement never wraps and the loop
    is a structural recursion on it. *)
Fixpoint sendByte_loop (i : nat) (value : Z) (s : mcu) : mcu :=
  match i with
  | O => s
  | S i' =>
      let s1 := normalPulse s in
      let s2 := if Z.land value 1 =? 0 then s1 else bit1Pause s1 in
      sendByte_loop i' (uint8 (Z.shiftr value 1)) s2
  end.

Definition sendByte (value : Z) : cmd := sendByte_loop 8 value.

(** The same loop with [i] as the [uint8_t] it is: the condition [i]
    is tested, [i--] wraps on 8 bits, and at most [fuel] turns are
    taken ([None] when they do not suffice). *)
Fixpoint sendByte_for (fuel : nat) (i value : Z) (s : mcu) : option mcu :=
  if i =? 0 then Some s
  else
    match fuel with
    | O => None
    | S fuel' =>
        let s1 := normalPulse s in
        let s2 := if Z.land value 1 =? 0 then s1 else bit1Pause s1 in
        sendByte_for fuel' (uint8 (i - 1)) (uint8 (Z.shiftr value 1)) s2
    end.

(** The arguments [~ADDR] and [~code] are [int]s that the call
    converts to the [uint8_t] parameter of [sendByte]. *)
Definition sendCode (code : Z) : cmd :=
  startPulse ;;
  sendByte ADDR ;;
  sendByte (uint8 (Z.lnot ADDR)) ;;
  sendByte code ;;
  sendByte (uint8 (Z.lnot code)) ;;
  normalPulse.

(** ** The button pins *)

(** What the environment does to the pins of port B: the level after
    reset, then a list of (time, new level) changes.  A level is a value
    of [PINB]; a pressed button pulls its bit low. *)
Record signal := mkSignal {
  idle  : Z;
  edges : list (Z * Z)
}.

Fixpoint level_at (v : Z) (es : list (Z * Z)) (t : Z) : Z :=
  match es with
  | [] => v
  | (te, ve) :: es' => if te <=? t then level_at ve es' t else v
  end.

(** Reading [PINB] at time [t]. *)
Definition PINB (pins : signal) (t : Z) : Z := level_at (idle pins) (edges pins) t.

(** [~PINB & 0b00111101] *)
Definition pressed (pins : signal) (t : Z) : Z :=
  Z.land (Z.lnot (PINB pins t)) 0x3D.

(** The first time after [t] at which a pin selected by [mask] toggles. *)
Fixpoint next_change (mask v : Z) (es : list (Z * Z)) (t : Z) : option Z :=
  match es with
  | [] => None
  | (te, ve) :: es' =>
      if (t <? te) && negb (Z.land ve mask =? Z.land v mask)
      then Some te
      else next_change mask ve es' t
  end.

(** Pins that can end a sleep: those of [PCMSK], provided the pin
    change interrupt (PCIE, bit 5 of [GIMSK]) and the global interrupt
    flag (bit 7 of [SREG]) are on.  [main] enables no other interrupt. *)
Definition wake_mask (r : regs) : Z :=
  if Z.testbit (GIMSK r) 5 && Z.testbit (SREG r) 7 then PCMSK r else 0.

(** [sleep_mode()]: the processor halts until the pin change interrupt
    fires; [EMPTY_INTERRUPT (PCINT0_vect)] then returns at once.
    [None] when no such change is ever coming. *)
Definition sleep_mode (pins : signal) (s : mcu) : option mcu :=
  match next_change (wake_mask (io s)) (idle pins) (edges pins) (now s) with
  | Some t => Some (mkMcu (io s) t (wave s ++ [(lit s, t - now s)]))
  | None => None
  end.

(** ** [main] *)

(** The statements of [main] before its loop. *)
Definition setup : cmd :=
  with_io (set_DDRB 0x00) ;;
  with_io (set_PORTB 0x3D) ;;
  with_io (set_TCCR0A 0x23) ;;
  with_io (set_TCCR0B 0x09) ;;
  with_io (set_OCR0A TOP) ;;
  with_io (set_OCR0B DUTY) ;;
  with_io (set_GIMSK 0x20) ;;
  with_io (set_PCMSK 0x3D) ;;
  with_io (fun r => set_SREG (Z.lor (SREG r) 0x80) r) ;;
  with_io (set_ADCSRA 0x00) ;;
  with_io (set_ACSR 0x80) ;;
  with_io (set_PRR 0x01) ;;
  with_io (set_sleep_sel SLEEP_MODE_PWR_DOWN).

(** The [switch (buttons)] of the main loop. *)
Definition switch_buttons (buttons : Z) : cmd :=
  if buttons =? 0x01 then sendCode KEY1
  else if buttons =? 0x04 then sendCode KEY2
  else if buttons =? 0x08 then sendCode KEY3
  else if buttons =? 0x10 then sendCode KEY4
  else if buttons =? 0x20 then sendCode KEY5
  else skip.

(** Program points of the body of [while(1)]. *)
Inductive pc :=
| AtSleep      (* sleep_mode();                              *)
| AtDebounce   (* _delay_ms(1);                              *)
| AtScan       (* buttons = ~PINB & 0b00111101; switch ...   *)
| AtHeld.      (* while (~PINB & 0b00111101) repeatCode();   *)

(** One statement of the loop (one turn of the inner [while] at
    [AtHeld]).  A processor that sleeps with no pin change ahead stays
    where it is. *)
Definition step (pins : signal) (c : pc * mcu) : pc * mcu :=
  let (p, s) := c in
  match p with
  | AtSleep =>
      match sleep_mode pins s with
      | Some s' => (AtDebounce, s')
      | None => (AtSleep, s)
      end
  | AtDebounce => (AtScan, _delay_ms 1 s)
  | AtScan =>
      let buttons := uint8 (pressed pins (now s)) in
      (AtHeld, switch_buttons buttons s)
  | AtHeld =>
      if pressed pins (now s) =? 0 then (AtSleep, s) else (AtHeld, repeatCode s)
  end.

Fixpoint run (pins : signal) (n : nat) (c : pc * mcu) : pc * mcu :=
  match n with
  | O => c
  | S n' => run pins n' (step pins c)
  end.

(** The registers after reset. *)
Definition reset : mcu :=
  mkMcu (mkRegs 0 0 0 0 0 0 0 0 0 0 0 0 SLEEP_MODE_IDLE) 0 [].

(** [main], run for [n] statements of its loop. *)
Definition main (pins : signal) (n : nat) : pc * mcu :=
  run pins n (AtSleep, setup reset).

(** ** What a receiver sees *)

(** Neighbouring stretches of equal level are one stretch. *)
Fixpoint coalesce (w : list seg) : list seg :=
  match w with
  | [] => []
  | (l, d) :: w' =>
      match coalesce w' with
      | (l', d') :: r =>
          if Bool.eqb l l' then (l, d + d') :: r else (l, d) :: (l', d') :: r
      | [] => [(l, d)]
      end
  end.

(** Bursts with the pause that follows each: (mark, space) in
    microseconds; a burst at the very end has space 0. *)
Fixpoint pair_up (w : list seg) : list (Z * Z) :=
  match w with
  | [] => []
  | (false, _) :: r => pair_up r
  | (true, m) :: r =>
      match r with
      | (false, sp) :: r' => (m, sp) :: pair_up r'
      | _ => (m, 0) :: pair_up r
      end
  end.

Definition demod (w : list seg) : list (Z * Z) := pair_up (coalesce w).

(** What a statement adds to the waveform. *)
Definition sent (c : cmd) (s : mcu) : list seg :=
  skipn (length (wave s)) (wave (c s)).

(** ** The NEC frame, as the protocol describes it

    These definitions follow the protocol description, not the code:
    they say what a frame should look like to a receiver.  The
    durations are the ones programmed by the macros. *)

(** Bits of a byte, least significant first. *)
Definition bits_lsb (n : nat) (v : Z) : list bool :=
  map (fun j => Z.testbit v (Z.of_nat j)) (seq 0 n).

(** A data bit: a burst, then a short pause for 0 and a long one for 1. *)
Definition bit_slot (b : bool) : Z * Z := (562, if b then 557 + 1120 else 557).

Definition byte_slots (v : Z) : list (Z * Z) := map bit_slot (bits_lsb 8 v).

Definition start_marker  : Z * Z := (9000, 4500).
Definition repeat_marker : Z * Z := (9000, 2250).
Definition stop_burst    : Z * Z := (562, 557).

(** Bitwise complement of an 8-bit value, [~v & 0xFF]. *)
Definition inverse (v : Z) : Z := Z.land (Z.lnot v) 0xFF.

Definition nec_frame (a c : Z) : list (Z * Z) :=
  start_marker ::
  byte_slots a ++ byte_slots (inverse a) ++
  byte_slots c ++ byte_slots (inverse c) ++
  [stop_burst].

(** A receiver tells the two pauses apart half way between their
    nominal lengths of 562.5 and 1687.5 microseconds. *)
Definition slot_bit (ms : Z * Z) : bool := 1125 <=? snd ms.

Fixpoint byte_of_bits (bs : list bool) : Z :=
  match bs with
  | [] => 0
  | b :: r => Z.b2z b + 2 * byte_of_bits r
  end.

Fixpoint bytes_of_bits (n : nat) (bs : list bool) : list Z :=
  match n with
  | O => []
  | S n' => byte_of_bits (firstn 8 bs) :: bytes_of_bits n' (skipn 8 bs)
  end.

(** The four bytes a receiver reads after the start marker. *)
Definition frame_bytes (f : list (Z * Z)) : list Z :=
  bytes_of_bits 4 (map slot_bit (tl f)).

(** ** Auxiliary definitions for the proofs *)

Definition lit_start (w : list seg) : Prop :=
  match w with
  | [] => True
  | (l, _) :: _ => l = true
  end.

(** ON for [m] microseconds, then OFF for [sp]. *)
Definition pulse (m sp : Z) : cmd := IRon ;; _delay_us m ;; IRoff ;; _delay_us sp.

(** The wave of the bit loop of [sendByte], read off its body. *)
Fixpoint bits_wave (i : nat) (value : Z) : list seg :=
  match i with
  | O => []
  | S i' =>
      [(true, 562); (false, 557)] ++
      (if Z.land value 1 =? 0 then [] else [(false, 1120)]) ++
      bits_wave i' (uint8 (Z.shiftr value 1))
  end.

(** The bits tested by the loop of [sendByte]. *)
Fixpoint loop_bits (i : nat) (value : Z) : list bool :=
  match i with
  | O => []
  | S i' => negb (Z.land value 1 =? 0) :: loop_bits i' (uint8 (Z.shiftr value 1))
  end.

(** The wave of [sendCode], read off its body. *)
Definition frame_wave (code : Z) : list seg :=
  [(true, 9000); (false, 4500)] ++
  bits_wave 8 ADDR ++ bits_wave 8 (uint8 (Z.lnot ADDR)) ++
  bits_wave 8 code ++ bits_wave 8 (uint8 (Z.lnot code)) ++
  [(true, 562); (false, 557)].

(** The bits a receiver reads from a wave, one per burst. *)
Definition emitted_bits (w : list seg) : list Z :=
  map (fun ms => Z.b2z (slot_bit ms)) (demod w).

(** The five single-button patterns of the [switch]. *)
Definition mapped (buttons : Z) : bool :=
  (buttons =? 0x01) || (buttons =? 0x04) || (buttons =? 0x08) ||
  (buttons =? 0x10) || (buttons =? 0x20).

(** The command of a single-button pattern. *)
Definition key_of (buttons : Z) : Z :=
  if buttons =? 0x01 then KEY1
  else if buttons =? 0x04 then KEY2
  else if buttons =? 0x08 then KEY3
  else if buttons =? 0x10 then KEY4
  else KEY5.

(** One turn of [while (...) repeatCode();], from a dark pin. *)
Definition repeat_cycle : list seg :=
  [(false, 40000); (true, 9000); (false, 2250);
   (true, 562); (false, 557); (false, 56000)].

(** Time from one check of the [while] to the next. *)
Definition repeat_interval : Z := 40000 + (9000 + 2250 + 562 + 557) + 56000.

(** Start time and length of every stretch with the carrier on, for a
    wave that begins at time [t]. *)
Fixpoint lit_starts (t : Z) (w : list seg) : list (Z * Z) :=
  match w with
  | [] => []
  | (l, d) :: r => (if l then [(t, d)] else []) ++ lit_starts (t + d) r
  end.

(** Start times of the 9 ms leading bursts. *)
Definition lead_starts (t : Z) (w : list seg) : list Z :=
  map fst (filter (fun td => snd td =? 9000) (lit_starts t w)).

(** Everything in the registers but the direction of the pins. *)
Definition cfg (s : mcu) : regs := set_DDRB 0 (io s).

(** Halted in [sleep_mode()] with no pin change ahead. *)
Definition asleep (pins : signal) (c : pc * mcu) : Prop :=
  fst c = AtSleep /\ sleep_mode pins (snd c) = None.

(** [k] turns of the inner [while]. *)
Fixpoint repeats (k : nat) (s : mcu) : mcu :=
  match k with
  | O => s
  | S k' => repeats k' (repeatCode s)
  end.

(** Two sample inputs: buttons 1 and 2 (PB0 and PB2) pressed together
    from 1 ms to 200 ms, and button 5 (PB5) alone over the same time. *)
Definition two_buttons : signal := mkSignal 0x3D [(1000, 0x38); (200000, 0x3D)].
Definition one_button  : signal := mkSignal 0x3D [(1000, 0x1D); (200000, 0x3D)].

(** A state of [main] 2 ms after reset, the LED dark. *)
Definition awake_state : mcu := mkMcu (io (setup reset)) 2000 [].

(** ** Definitions for durations, registers and whole runs *)

(** Number of 1 bits in a list of bits, and in a byte. *)
Fixpoint ones (bs : list bool) : Z :=
  match bs with
  | [] => 0
  | b :: r => Z.b2z b + ones r
  end.

Definition popcount (v : Z) : Z := ones (bits_lsb 8 v).

(** Programmed length of a frame: start pulse, 32 data pulses of which
    16 carry the longer pause, stop pulse. *)
Definition frame_time : Z :=
  (9000 + 4500) + 32 * (562 + 557) + 16 * 1120 + (562 + 557).

(** The registers with PB1 turned into an input. *)
Definition led_off (r : regs) : regs := set_DDRB (Z.land (DDRB r) 0xFD) r.

(** A wave in which every stretch with the carrier on lasts 9000 or
    562 us and is followed by a pause of positive length;
    [after_burst] tells that the stretch before [w] had the carrier on. *)
Fixpoint led_ok (after_burst : bool) (w : list seg) : bool :=
  match w with
  | [] => negb after_burst
  | (true, m) :: r =>
      negb after_burst && ((m =? 9000) || (m =? 562)) && led_ok true r
  | (false, sp) :: r =>
      (negb after_burst || (0 <? sp)) && led_ok false r
  end.

(** The pins idle (all high) until [t0], at level [lvl] from [t0] to
    [t1], idle again afterwards. *)
Definition single_press (lvl t0 t1 : Z) : signal :=
  mkSignal 0x3D [(t0, lvl); (t1, 0x3D)].

(** Button 5 (PB5) down from reset on, for ever. *)
Definition stuck_button : signal := mkSignal 0x1D [].

(** Only PB1, PB6 and PB7 ever move. *)
Definition other_pins : signal := mkSignal 0x3D [(500, 0x3F); (900, 0xFD)].

(** The state of [main] at its scan when the first pin change came at
    [t0]: asleep until [t0], then the 1 ms of debounce. *)
Definition scan_state (t0 : Z) : mcu :=
  mkMcu (io (setup reset)) (t0 + 1000) [(false, t0); (false, 1000)].

(** ** Definitions for a pass of the main loop *)

(** The listed pin changes come at strictly increasing times. *)
Fixpoint ordered (es : list (Z * Z)) : bool :=
  match es with
  | [] => true
  | (t1, _) :: r =>
      match r with
      | [] => true
      | (t2, _) :: _ => (t1 <? t2) && ordered r
      end
  end.

(** The state in which [sleep_mode()] returns at time [t_w], entered
    in state [s] with the LED dark. *)
Definition woken (s : mcu) (t_w : Z) : mcu :=
  mkMcu (io s) t_w (wave s ++ [(false, t_w - now s)]).

(** The state after the scan that follows a wake-up at [t_w]: the
    frame of the button read 1 ms later, if the mask read is one of
    the five patterns. *)
Definition scanned (pins : signal) (s : mcu) (t_w : Z) : mcu :=
  (if mapped (pressed pins (t_w + 1000))
   then sendCode (key_of (pressed pins (t_w + 1000)))
   else skip) (_delay_ms 1 (woken s t_w)).

(** The time of the first check of the inner [while] after a wake-up
    at [t_w]. *)
Definition first_check (pins : signal) (t_w : Z) : Z :=
  t_w + 1000 + (if mapped (pressed pins (t_w + 1000)) then 68347 else 0).

(** Button 5 (PB5) down from 1 ms to 200 ms, then button 1 (PB0) down
    from 500 ms to 600 ms. *)
Definition two_presses : signal :=
  mkSignal 0x3D [(1000, 0x1D); (200000, 0x3D); (500000, 0x3C); (600000, 0x3D)].

(** The state in which [main] sleeps after the first of them: the
    frame of button 5 and two repeat codes are out. *)
Definition after_first_press : mcu :=
  repeats 2 (scanned two_presses (setup reset) 1000).

(** * Lemmas *)

(** The start, repeat and data pulses are instances of [pulse]. *)
Ltac as_pulses :=
  change normalPulse with (pulse 562 557) in *;
  change startPulse with (pulse 9000 4500) in *;
  change repeatPulse with (pulse 9000 2250) in *.

(** ** Waveforms of the macros *)

Lemma coalesce_dark_lit (sp : Z) (w : list seg) :
  lit_start w -> coalesce ((false, sp) :: w) = (false, sp) :: coalesce w.
Proof.
  destruct w as [|[l d] w]; [reflexivity|]. cbn [lit_start]. intros ->.
  cbn [coalesce]. destruct (coalesce w) as [|[l2 d2] r]; [reflexivity|].
  destruct (Bool.eqb true l2); reflexivity.
Qed.

Lemma coalesce_lit_dark (m sp : Z) (w : list seg) :
  coalesce ((true, m) :: (false, sp) :: w)
  = (true, m) :: coalesce ((false, sp) :: w).
Proof.
  cbn [coalesce]. destruct (coalesce w) as [|[l2 d2] r]; [reflexivity|].
  destruct (Bool.eqb false l2); reflexivity.
Qed.

Lemma coalesce_same (l : bool) (d d' : Z) (w : list seg) :
  coalesce ((l, d) :: (l, d') :: w) = coalesce ((l, d + d') :: w).
Proof.
  cbn [coalesce]. destruct (coalesce w) as [|[l2 d2] r].
  - now destruct l.
  - destruct l, l2; cbn [Bool.eqb]; now rewrite ?Z.add_assoc.
Qed.

(** A burst and its pause, followed by the next burst (or by nothing),
    demodulate to one (mark, space) pair. *)
Lemma demod_pulse (m sp : Z) (w : list seg) :
  lit_start w ->
  demod ((true, m) :: (false, sp) :: w) = (m, sp) :: demod w.
Proof.
  intros H. unfold demod.
  now rewrite coalesce_lit_dark, coalesce_dark_lit.
Qed.

Lemma demod_pulse_ext (m sp sp' : Z) (w : list seg) :
  lit_start w ->
  demod ((true, m) :: (false, sp) :: (false, sp') :: w) = (m, sp + sp') :: demod w.
Proof.
  intros H. unfold demod.
  now rewrite coalesce_lit_dark, coalesce_same, coalesce_dark_lit.
Qed.

(** *** Registers and waveform after each macro *)

Lemma lit_IRon (s : mcu) : lit (IRon s) = true.
Proof.
  unfold lit, IRon, with_io, set_DDRB. cbn [io DDRB].
  rewrite Z.lor_spec. apply Bool.orb_true_r.
Qed.

Lemma lit_IRoff (s : mcu) : lit (IRoff s) = false.
Proof.
  unfold lit, IRoff, with_io, set_DDRB. cbn [io DDRB].
  rewrite Z.land_spec. apply Bool.andb_false_r.
Qed.

Lemma lit_delay (d : Z) (s : mcu) : lit (_delay_us d s) = lit s.
Proof. reflexivity. Qed.

Lemma pulse_wave (m sp : Z) (s : mcu) :
  wave (pulse m sp s) = wave s ++ [(true, m); (false, sp)].
Proof.
  unfold pulse, seq_cmd. cbn [_delay_us wave].
  rewrite lit_IRoff. cbn [IRoff with_io wave _delay_us].
  rewrite lit_IRon. cbn [IRon with_io wave].
  now rewrite <- app_assoc.
Qed.

Lemma pulse_lit (m sp : Z) (s : mcu) : lit (pulse m sp s) = false.
Proof. unfold pulse, seq_cmd. rewrite lit_delay. apply lit_IRoff. Qed.

Lemma pulse_now (m sp : Z) (s : mcu) : now (pulse m sp s) = now s + m + sp.
Proof. reflexivity. Qed.

Lemma sendByte_loop_wave (i : nat) :
  forall value s,
    wave (sendByte_loop i value s) = wave s ++ bits_wave i value.
Proof.
  induction i as [|i IH]; intros value s; cbn [sendByte_loop bits_wave].
  - now rewrite app_nil_r.
  - rewrite IH. as_pulses.
    destruct (Z.land value 1 =? 0).
    + rewrite pulse_wave. now rewrite <- !app_assoc.
    + unfold bit1Pause. cbn [_delay_us wave].
      rewrite pulse_lit, pulse_wave. now rewrite <- !app_assoc.
Qed.

Lemma sent_app (c : cmd) (s : mcu) (w : list seg) :
  wave (c s) = wave s ++ w -> sent c s = w.
Proof.
  intros E. unfold sent. rewrite E.
  rewrite skipn_app, skipn_all, Nat.sub_diag. reflexivity.
Qed.

Lemma length_loop_bits (i : nat) : forall v, length (loop_bits i v) = i.
Proof. induction i; intros v; cbn [loop_bits length]; auto. Qed.

Lemma land_1_bit0 (v : Z) : Z.land v 1 = Z.b2z (Z.testbit v 0).
Proof.
  change 1 with (Z.ones 1). rewrite Z.land_ones by lia.
  symmetry. apply Z.bit0_mod.
Qed.

Lemma bits_lsb_succ (i : nat) (v : Z) :
  bits_lsb (S i) v = Z.testbit v 0 :: bits_lsb i (Z.shiftr v 1).
Proof.
  unfold bits_lsb. cbn [seq map]. f_equal.
  rewrite <- seq_shift, map_map. apply map_ext. intros j.
  rewrite Z.shiftr_spec by lia. f_equal. lia.
Qed.

Lemma shiftr1_range (v : Z) : 0 <= v < 256 -> 0 <= Z.shiftr v 1 < 256.
Proof.
  intros H. rewrite Z.shiftr_div_pow2 by lia. change (2 ^ 1) with 2.
  split; [apply Z.div_pos; lia|].
  apply Z.div_lt_upper_bound; lia.
Qed.

Lemma loop_bits_lsb (i : nat) :
  forall v, 0 <= v < 256 -> loop_bits i v = bits_lsb i v.
Proof.
  induction i as [|i IH]; intros v Hv; [reflexivity|].
  cbn [loop_bits]. rewrite bits_lsb_succ.
  pose proof (shiftr1_range v Hv) as Hr.
  unfold uint8. rewrite Z.mod_small by exact Hr. rewrite (IH _ Hr).
  f_equal. rewrite land_1_bit0. now destruct (Z.testbit v 0).
Qed.

Lemma lit_start_bits_wave (i : nat) (v : Z) (rest : list seg) :
  lit_start rest -> lit_start (bits_wave i v ++ rest).
Proof. destruct i; [exact (fun H => H)|reflexivity]. Qed.

Create HintDb waves.
#[local] Hint Resolve lit_start_bits_wave : waves.

(** Each turn of the loop shows as one burst, with the short or the
    long pause according to the bit it tested. *)
Lemma demod_bits_wave (i : nat) :
  forall v rest,
    lit_start rest ->
    demod (bits_wave i v ++ rest) = map bit_slot (loop_bits i v) ++ demod rest.
Proof.
  induction i as [|i IH]; intros v rest Hr; [reflexivity|].
  cbn [bits_wave loop_bits map].
  pose proof (lit_start_bits_wave i (uint8 (Z.shiftr v 1)) rest Hr) as Hs.
  destruct (Z.land v 1 =? 0); cbn [negb bit_slot app].
  - rewrite demod_pulse by exact Hs. now rewrite IH.
  - rewrite demod_pulse_ext by exact Hs. now rewrite IH.
Qed.

Lemma sendCode_wave (code : Z) (s : mcu) :
  wave (sendCode code s) = wave s ++ frame_wave code.
Proof.
  unfold sendCode, seq_cmd, sendByte, frame_wave.
  as_pulses.
  rewrite pulse_wave, !sendByte_loop_wave, pulse_wave.
  now rewrite <- !app_assoc.
Qed.

(** The counter reaches 0 after exactly [i] turns. *)
Lemma sendByte_for_loop (i : nat) :
  forall fuel v s,
    (i < 256)%nat ->
    sendByte_for fuel (Z.of_nat i) v s
    = if (i <=? fuel)%nat then Some (sendByte_loop i v s) else None.
Proof.
  induction i as [|i IH]; intros fuel v s Hi.
  - now destruct fuel.
  - destruct fuel as [|fuel]; [reflexivity|].
    cbn [sendByte_for sendByte_loop].
    replace (Z.of_nat (S i) =? 0) with false by (symmetry; apply Z.eqb_neq; lia).
    replace (uint8 (Z.of_nat (S i) - 1)) with (Z.of_nat i)
      by (unfold uint8; rewrite Z.mod_small; lia).
    rewrite IH by lia. reflexivity.
Qed.

Lemma sendByte_sent (v : Z) (s : mcu) : sent (sendByte v) s = bits_wave 8 v.
Proof. apply sent_app, sendByte_loop_wave. Qed.

Lemma sendCode_sent (code : Z) (s : mcu) : sent (sendCode code) s = frame_wave code.
Proof. apply sent_app, sendCode_wave. Qed.

(** The (mark, space) pairs of a frame, with the bits the loops tested. *)
Lemma demod_frame_wave (code : Z) :
  demod (frame_wave code)
  = start_marker ::
    map bit_slot (loop_bits 8 ADDR) ++
    map bit_slot (loop_bits 8 (uint8 (Z.lnot ADDR))) ++
    map bit_slot (loop_bits 8 code) ++
    map bit_slot (loop_bits 8 (uint8 (Z.lnot code))) ++
    [stop_burst].
Proof.
  unfold frame_wave.
  change ([(true, 9000); (false, 4500)] ++ ?w)
    with ((true, 9000) :: (false, 4500) :: w).
  assert (L : lit_start [(true, 562); (false, 557)]) by reflexivity.
  rewrite demod_pulse by auto with waves.
  unfold start_marker. f_equal.
  rewrite !demod_bits_wave by auto with waves.
  reflexivity.
Qed.

Lemma uint8_lnot (v : Z) : 0 <= v < 256 -> uint8 (Z.lnot v) = 255 - v.
Proof.
  intros H. unfold uint8, Z.lnot.
  replace (Z.pred (- v)) with ((255 - v) + (-1) * 256) by lia.
  rewrite Z.mod_add by lia. apply Z.mod_small. lia.
Qed.

Lemma repeatCode_wave (s : mcu) :
  wave (repeatCode s)
  = wave s ++ [(lit s, 40000); (true, 9000); (false, 2250);
               (true, 562); (false, 557); (false, 56000)].
Proof.
  unfold repeatCode, seq_cmd, _delay_ms.
  as_pulses.
  cbn [_delay_us wave]. rewrite pulse_lit, !pulse_wave. cbn [_delay_us wave].
  now rewrite <- !app_assoc.
Qed.

(** *** Reading the bytes back *)

Lemma slot_bit_slot (b : bool) : slot_bit (bit_slot b) = b.
Proof. now destruct b. Qed.

Lemma map_slot_bit_slots (bs : list bool) : map slot_bit (map bit_slot bs) = bs.
Proof.
  rewrite map_map. rewrite <- (map_id bs) at 2.
  apply map_ext, slot_bit_slot.
Qed.

Lemma length_bits_lsb (n : nat) (v : Z) : length (bits_lsb n v) = n.
Proof. unfold bits_lsb. now rewrite length_map, length_seq. Qed.

Lemma byte_of_bits_lsb (n : nat) :
  forall v, 0 <= v < 2 ^ Z.of_nat n -> byte_of_bits (bits_lsb n v) = v.
Proof.
  induction n as [|n IH]; intros v Hv.
  - cbn in *. lia.
  - rewrite bits_lsb_succ. cbn [byte_of_bits].
    rewrite Nat2Z.inj_succ, Z.pow_succ_r in Hv by lia.
    rewrite IH.
    + rewrite <- Z.div2_spec, Z.bit0_odd.
      pose proof (Z.div2_odd v). lia.
    + rewrite Z.shiftr_div_pow2 by lia. change (2 ^ 1) with 2.
      split; [apply Z.div_pos; lia | apply Z.div_lt_upper_bound; lia].
Qed.

Lemma firstn_exact {A : Type} (l r : list A) : firstn (length l) (l ++ r) = l.
Proof. induction l; cbn; [now destruct r | now f_equal]. Qed.

Lemma skipn_exact {A : Type} (l r : list A) : skipn (length l) (l ++ r) = r.
Proof. induction l; cbn; auto. Qed.

Lemma take_byte (v : Z) (r : list bool) :
  0 <= v < 256 ->
  byte_of_bits (firstn 8 (bits_lsb 8 v ++ r)) = v /\
  skipn 8 (bits_lsb 8 v ++ r) = r.
Proof.
  intros Hv.
  pose proof (firstn_exact (bits_lsb 8 v) r) as F.
  pose proof (skipn_exact (bits_lsb 8 v) r) as K.
  rewrite length_bits_lsb in F, K. rewrite F, K.
  split; [apply (byte_of_bits_lsb 8), Hv | reflexivity].
Qed.

Lemma inverse_range (v : Z) : 0 <= inverse v < 256.
Proof.
  unfold inverse. change 0xFF with (Z.ones 8).
  rewrite Z.land_ones by lia. apply Z.mod_pos_bound. lia.
Qed.

Lemma frame_bytes_nec_frame (a c : Z) :
  0 <= a < 256 -> 0 <= c < 256 ->
  frame_bytes (nec_frame a c) = [a; inverse a; c; inverse c].
Proof.
  intros Ha Hc. unfold frame_bytes, nec_frame, byte_slots. cbn [tl].
  rewrite !map_app, !map_slot_bit_slots. cbn [bytes_of_bits].
  pose proof (inverse_range a) as Hia. pose proof (inverse_range c) as Hic.
  repeat match goal with
  | |- context [bits_lsb 8 ?v ++ ?r] =>
      let H := fresh in
      assert (H : 0 <= v < 256) by assumption;
      destruct (take_byte v r H) as [E1 E2]; rewrite ?E1, ?E2; clear H E1 E2
  end.
  reflexivity.
Qed.

Lemma ADDR_range : 0 <= ADDR < 256.
Proof. unfold ADDR. lia. Qed.

Lemma uint8_lnot_inverse (v : Z) : uint8 (Z.lnot v) = inverse v.
Proof.
  unfold inverse, uint8. change 0xFF with (Z.ones 8).
  now rewrite Z.land_ones by lia.
Qed.

Lemma sendCode_demod (code : Z) (s : mcu) :
  0 <= code < 256 ->
  demod (sent (sendCode code) s) = nec_frame ADDR code.
Proof.
  intros Hc. rewrite sendCode_sent, demod_frame_wave.
  rewrite !uint8_lnot_inverse.
  rewrite !loop_bits_lsb by first [assumption | apply inverse_range | apply ADDR_range].
  reflexivity.
Qed.

Lemma sendByte_demod (v : Z) (s : mcu) :
  0 <= v < 256 -> demod (sent (sendByte v) s) = byte_slots v.
Proof.
  intros Hv. rewrite sendByte_sent.
  rewrite <- (app_nil_r (bits_wave 8 v)).
  rewrite demod_bits_wave by exact I.
  rewrite loop_bits_lsb by exact Hv. apply app_nil_r.
Qed.

(** * Frames *)

(** C1. For every 8-bit command code, the bursts and pauses that
    [sendCode] puts on the pin are, in order: the start marker
    (9000, 4500), the eight bit slots of each of the four bytes ADDR,
    ~ADDR, code, ~code (complements taken on 8 bits), and one stop
    burst, after which the frame holds no further bit. *)
Theorem sendCode_frame (code : Z) (s : mcu) :
  0 <= code < 256 ->
  demod (sent (sendCode code) s)
  = start_marker ::
    byte_slots ADDR ++ byte_slots (inverse ADDR) ++
    byte_slots code ++ byte_slots (inverse code) ++
    [stop_burst].
Proof.
  intros Hc.
  (* the wave is the one read off the body of [sendCode] ... *)
  rewrite sendCode_sent, demod_frame_wave.
  (* ... whose converted arguments are the 8-bit complements ... *)
  rewrite !uint8_lnot_inverse.
  (* ... and whose loops test the bits from bit 0 upwards. *)
  rewrite (loop_bits_lsb 8 ADDR ADDR_range).
  rewrite (loop_bits_lsb 8 (inverse ADDR) (inverse_range ADDR)).
  rewrite (loop_bits_lsb 8 code Hc).
  rewrite (loop_bits_lsb 8 (inverse code) (inverse_range code)).
  reflexivity.
Qed.

Lemma sendCode_frame_witness :
  0 <= KEY5 < 256 /\
  demod (sent (sendCode KEY5) reset)
  = start_marker ::
    byte_slots ADDR ++ byte_slots (inverse ADDR) ++
    byte_slots KEY5 ++ byte_slots (inverse KEY5) ++
    [stop_burst].
Proof.
  assert (H : 0 <= KEY5 < 256) by (unfold KEY5; lia).
  split; [exact H | exact (sendCode_frame KEY5 reset H)].
Defined.

(** C2. The byte a receiver reads after the address and after the
    command is the bitwise complement on 8 bits, [~v & 0xFF]: every
    one of its 8 bits is the negation of the bit of [v], its value is
    [255 - v], and it is never the arithmetic negation of [v]. *)
Theorem sendCode_inverse_bytes (code : Z) (s : mcu) :
  0 <= code < 256 ->
  frame_bytes (demod (sent (sendCode code) s))
  = [ADDR; Z.land (Z.lnot ADDR) 0xFF; code; Z.land (Z.lnot code) 0xFF] /\
  (forall v, 0 <= v < 256 ->
     uint8 (Z.lnot v) = Z.land (Z.lnot v) 0xFF /\
     (forall j, 0 <= j < 8 ->
        Z.testbit (uint8 (Z.lnot v)) j = negb (Z.testbit v j)) /\
     uint8 (Z.lnot v) = 255 - v /\
     uint8 (Z.lnot v) <> uint8 (- v)).
Proof.
  intros Hc. split.
  - rewrite sendCode_demod by exact Hc.
    apply frame_bytes_nec_frame; [apply ADDR_range | exact Hc].
  - intros v Hv. repeat split.
    + apply uint8_lnot_inverse.
    + intros j Hj. rewrite uint8_lnot_inverse. unfold inverse.
      change 0xFF with (Z.ones 8).
      rewrite Z.land_spec, Z.lnot_spec, Z.ones_spec_low by lia.
      apply Bool.andb_true_r.
    + apply uint8_lnot, Hv.
    + rewrite uint8_lnot by exact Hv. unfold uint8.
      destruct (Z.eq_dec v 0) as [->|Hn]; [discriminate|].
      replace (- v) with ((256 - v) + (-1) * 256) by lia.
      rewrite Z.mod_add, Z.mod_small by lia. lia.
Qed.

Lemma sendCode_inverse_bytes_witness :
  0 <= KEY1 < 256 /\
  frame_bytes (demod (sent (sendCode KEY1) reset)) = [0x04; 0xFB; 0x02; 0xFD].
Proof.
  assert (H : 0 <= KEY1 < 256) by (unfold KEY1; lia).
  split; [exact H | exact (proj1 (sendCode_inverse_bytes KEY1 reset H))].
Defined.

(** C3. [sendByte] emits the bits of its argument least significant
    first: the bit of the i-th burst is [(v >> i) & 1]; for 0b10110000
    (0xB0) the bits are 0,0,0,0,1,1,0,1. *)
Theorem sendByte_lsb_first (v : Z) (s : mcu) :
  0 <= v < 256 ->
  emitted_bits (sent (sendByte v) s)
  = map (fun i => Z.land (Z.shiftr v (Z.of_nat i)) 1) (seq 0 8) /\
  emitted_bits (sent (sendByte 0xB0) s) = [0; 0; 0; 0; 1; 1; 0; 1].
Proof.
  intros Hv. split.
  - unfold emitted_bits. rewrite sendByte_demod by exact Hv.
    unfold byte_slots, bits_lsb. rewrite !map_map. apply map_ext.
    intros i. rewrite slot_bit_slot, land_1_bit0, Z.shiftr_spec by lia.
    reflexivity.
  - unfold emitted_bits. rewrite sendByte_demod by lia. reflexivity.
Qed.

Lemma sendByte_lsb_first_witness :
  0 <= 0xB0 < 256 /\
  emitted_bits (sent (sendByte 0xB0) reset) = [0; 0; 0; 0; 1; 1; 0; 1].
Proof.
  assert (H : 0 <= 0xB0 < 256) by lia.
  split; [exact H | exact (proj1 (sendByte_lsb_first 0xB0 reset H))].
Defined.

(** C4. Whatever the bit, its burst lasts 562 us; the pause after it
    is 557 us for a 0 (within 5 us of the nominal 562) and
    557 + 1120 = 1677 us for a 1 (within 10 us of the nominal 1687):
    the pause of a 1 is the pause of a 0 plus 1120 us. *)
Theorem bit_timing (v : Z) (s : mcu) (i : nat) :
  0 <= v < 256 -> (i < 8)%nat ->
  exists space,
    nth i (demod (sent (sendByte v) s)) (0, 0) = (562, space) /\
    space = 557 + (if Z.testbit v (Z.of_nat i) then 1120 else 0) /\
    Z.abs (space - (if Z.testbit v (Z.of_nat i) then 1687 else 562)) <= 10.
Proof.
  intros Hv Hi. rewrite sendByte_demod by exact Hv.
  unfold byte_slots, bits_lsb.
  do 8 (destruct i as [|i];
        [cbn [seq map nth bit_slot];
         destruct (Z.testbit v _); eexists; repeat split; cbn; lia|]).
  lia.
Qed.

Lemma bit_timing_witness :
  0 <= 0xB0 < 256 /\ (4 < 8)%nat /\
  exists space,
    nth 4 (demod (sent (sendByte 0xB0) reset)) (0, 0) = (562, space) /\
    space = 557 + (if Z.testbit 0xB0 (Z.of_nat 4) then 1120 else 0) /\
    Z.abs (space - (if Z.testbit 0xB0 (Z.of_nat 4) then 1687 else 562)) <= 10.
Proof.
  assert (H : 0 <= 0xB0 < 256) by lia.
  assert (H' : (4 < 8)%nat) by lia.
  split; [exact H | split; [exact H' | exact (bit_timing 0xB0 reset 4 H H')]].
Defined.

(** C9. The loop of [sendByte] ends, for any argument, after exactly
    8 turns of its 8-bit counter (8 turns suffice and fewer do not),
    one burst per turn; a frame has 32 data-bit bursts between the
    start marker and the stop burst, 34 bursts in all. *)
Theorem burst_counts (v : Z) (s : mcu) :
  (forall fuel, sendByte_for fuel 8 v s
                = if (8 <=? fuel)%nat then Some (sendByte v s) else None) /\
  length (loop_bits 8 v) = 8%nat /\
  length (demod (sent (sendByte v) s)) = 8%nat /\
  exists data,
    demod (sent (sendCode v) s) = start_marker :: data ++ [stop_burst] /\
    Forall (fun ms => fst ms = 562) data /\
    length data = 32%nat /\
    length (demod (sent (sendCode v) s)) = 34%nat.
Proof.
  split; [intros fuel; apply (sendByte_for_loop 8); lia|].
  split; [apply length_loop_bits|]. split.
  - rewrite sendByte_sent, <- (app_nil_r (bits_wave 8 v)).
    rewrite demod_bits_wave by exact I.
    now rewrite app_nil_r, length_map, length_loop_bits.
  - rewrite sendCode_sent, demod_frame_wave.
    exists (map bit_slot (loop_bits 8 ADDR) ++
            map bit_slot (loop_bits 8 (uint8 (Z.lnot ADDR))) ++
            map bit_slot (loop_bits 8 v) ++
            map bit_slot (loop_bits 8 (uint8 (Z.lnot v)))).
    split; [now rewrite <- !app_assoc|]. split; [|split].
    + repeat (apply Forall_app; split);
        apply Forall_forall; intros ms Hin;
        apply in_map_iff in Hin; destruct Hin as (b & <- & _); reflexivity.
    + now rewrite !length_app, !length_map, !length_loop_bits.
    + cbn [length]. now rewrite !length_app, !length_map, !length_loop_bits.
Qed.

(** C10. The stop burst of a frame and of a repeat code is a
    [normalPulse] like any data-bit burst: 562 us of carrier and then
    the 557 us with the carrier off that the macro itself waits. *)
Theorem stop_burst_normalPulse (code : Z) (s : mcu) :
  sent normalPulse s = [(true, 562); (false, 557)] /\
  (exists s', sendCode code s = normalPulse s' /\
              wave (sendCode code s) = wave s' ++ sent normalPulse s') /\
  (exists s', repeatCode s = _delay_ms 56 (normalPulse s') /\
              wave (repeatCode s)
              = wave s' ++ sent normalPulse s' ++ [(false, 1000 * 56)]) /\
  (exists w, sent (sendCode code) s = w ++ [(true, 562); (false, 557)]) /\
  sent repeatCode s
  = [(lit s, 40000); (true, 9000); (false, 2250);
     (true, 562); (false, 557); (false, 56000)].
Proof.
  assert (N : forall s', sent normalPulse s' = [(true, 562); (false, 557)]).
  { intros s'. apply sent_app. as_pulses.
    apply pulse_wave. }
  split; [apply N|]. split; [|split; [|split]].
  - eexists. split; [reflexivity|]. rewrite N.
    as_pulses. apply pulse_wave.
  - exists (repeatPulse (_delay_ms 40 s)). split; [reflexivity|].
    rewrite N, repeatCode_wave. change repeatPulse with (pulse 9000 2250).
    rewrite pulse_wave. unfold _delay_ms. cbn [_delay_us wave].
    now rewrite <- !app_assoc.
  - rewrite sendCode_sent. unfold frame_wave.
    eexists. rewrite !app_assoc. reflexivity.
  - apply sent_app, repeatCode_wave.
Qed.

(** * The main loop *)

Section MainLoop.

Variable pins : signal.

Lemma run_add (n m : nat) (c : pc * mcu) :
  run pins (n + m) c = run pins m (run pins n c).
Proof. revert c. induction n; intros c; cbn [run Nat.add]; auto. Qed.

(** *** Only [DDRB] changes after [setup] *)

Lemma cfg_pulse (m sp : Z) (s : mcu) : cfg (pulse m sp s) = cfg s.
Proof. reflexivity. Qed.

Lemma cfg_sendByte_loop (i : nat) :
  forall v s, cfg (sendByte_loop i v s) = cfg s.
Proof.
  induction i as [|i IH]; intros v s; cbn [sendByte_loop]; [reflexivity|].
  rewrite IH. now destruct (Z.land v 1 =? 0).
Qed.

Lemma cfg_sendCode (code : Z) (s : mcu) : cfg (sendCode code s) = cfg s.
Proof.
  unfold sendCode, seq_cmd, sendByte.
  as_pulses.
  now rewrite cfg_pulse, !cfg_sendByte_loop, cfg_pulse.
Qed.

Lemma cfg_switch (b : Z) (s : mcu) : cfg (switch_buttons b s) = cfg s.
Proof.
  unfold switch_buttons.
  repeat match goal with |- context [if ?c then _ else _] => destruct c end;
    first [apply cfg_sendCode | reflexivity].
Qed.

Lemma sleep_mode_some (s s1 : mcu) :
  sleep_mode pins s = Some s1 ->
  io s1 = io s /\ wave s1 = wave s ++ [(lit s, now s1 - now s)] /\
  next_change (wake_mask (io s)) (idle pins) (edges pins) (now s) = Some (now s1).
Proof.
  unfold sleep_mode.
  destruct (next_change _ _ _ _) as [t|]; [|discriminate].
  intros E; injection E as <-. auto.
Qed.

Lemma cfg_step (c : pc * mcu) : cfg (snd (step pins c)) = cfg (snd c).
Proof.
  destruct c as [[] s]; cbn [step snd].
  - destruct (sleep_mode pins s) as [s1|] eqn:E; [|reflexivity].
    apply sleep_mode_some in E. cbn [snd]. unfold cfg. now destruct E as [-> _].
  - reflexivity.
  - apply cfg_switch.
  - now destruct (pressed pins (now s) =? 0).
Qed.

Lemma cfg_run (n : nat) : forall c, cfg (snd (run pins n c)) = cfg (snd c).
Proof.
  induction n as [|n IH]; intros c; cbn [run]; [reflexivity|].
  now rewrite IH, cfg_step.
Qed.

(** *** The LED is dark between statements *)

Lemma lit_sendCode (code : Z) (s : mcu) : lit (sendCode code s) = false.
Proof.
  unfold sendCode, seq_cmd. as_pulses.
  apply pulse_lit.
Qed.

Lemma lit_repeatCode (s : mcu) : lit (repeatCode s) = false.
Proof.
  unfold repeatCode, seq_cmd, _delay_ms. rewrite lit_delay.
  as_pulses. apply pulse_lit.
Qed.

Lemma lit_switch (b : Z) (s : mcu) :
  lit s = false -> lit (switch_buttons b s) = false.
Proof.
  intros H. unfold switch_buttons.
  repeat match goal with |- context [if ?c then _ else _] => destruct c end;
    first [apply lit_sendCode | exact H].
Qed.

Lemma lit_step (c : pc * mcu) :
  lit (snd c) = false -> lit (snd (step pins c)) = false.
Proof.
  destruct c as [[] s]; cbn [step snd]; intros H.
  - destruct (sleep_mode pins s) as [s1|] eqn:E; [|exact H].
    apply sleep_mode_some in E. cbn [snd]. unfold lit in *.
    now destruct E as [-> _].
  - exact H.
  - now apply lit_switch.
  - destruct (pressed pins (now s) =? 0); [exact H | apply lit_repeatCode].
Qed.

Lemma lit_run (n : nat) :
  forall c, lit (snd c) = false -> lit (snd (run pins n c)) = false.
Proof.
  induction n as [|n IH]; intros c H; cbn [run]; [exact H|].
  now apply IH, lit_step.
Qed.

(** *** Time only moves forward *)

Lemma now_sendByte_loop (i : nat) :
  forall v s, now s <= now (sendByte_loop i v s).
Proof.
  induction i as [|i IH]; intros v s; cbn [sendByte_loop]; [lia|].
  etransitivity; [|apply IH].
  as_pulses.
  destruct (Z.land v 1 =? 0); unfold bit1Pause; cbn [_delay_us now];
    rewrite ?pulse_now; lia.
Qed.

Lemma now_sendCode (code : Z) (s : mcu) : now s <= now (sendCode code s).
Proof.
  unfold sendCode, seq_cmd, sendByte.
  as_pulses.
  rewrite pulse_now.
  apply Z.le_trans with (now (pulse 9000 4500 s)); [rewrite pulse_now; lia|].
  match goal with |- _ <= now ?x + _ + _ => apply Z.le_trans with (now x) end;
    [|lia].
  do 4 (etransitivity; [|apply now_sendByte_loop]). lia.
Qed.

Lemma now_switch (b : Z) (s : mcu) : now s <= now (switch_buttons b s).
Proof.
  unfold switch_buttons.
  repeat match goal with |- context [if ?c then _ else _] => destruct c end;
    first [apply now_sendCode | unfold skip; lia].
Qed.

Lemma now_repeatCode (s : mcu) : now (repeatCode s) = now s + repeat_interval.
Proof. unfold repeat_interval. cbn. lia. Qed.

Lemma next_change_later (mask : Z) (es : list (Z * Z)) :
  forall v t te,
    next_change mask v es t = Some te ->
    t < te /\ exists ve, In (te, ve) es.
Proof.
  induction es as [|[t1 v1] es IH]; intros v t te; cbn [next_change];
    [discriminate|].
  destruct ((t <? t1) && negb (Z.land v1 mask =? Z.land v mask)) eqn:E.
  - intros [= <-]. apply andb_prop in E. destruct E as [E _].
    apply Z.ltb_lt in E. split; [exact E|]. exists v1. now left.
  - intros H. destruct (IH _ _ _ H) as (L & ve & I).
    split; [exact L|]. exists ve. now right.
Qed.

(** *** The loop never ends *)

Lemma asleep_stays (s : mcu) (n : nat) :
  sleep_mode pins s = None -> run pins n (AtSleep, s) = (AtSleep, s).
Proof.
  intros E. induction n as [|n IH]; cbn [run step]; [reflexivity|].
  now rewrite E.
Qed.

Lemma advance_sleep (s : mcu) :
  exists n, asleep pins (run pins n (AtSleep, s)) \/
            now s + 1000 <= now (snd (run pins n (AtSleep, s))).
Proof.
  destruct (sleep_mode pins s) as [s1|] eqn:E.
  - exists 2%nat. right. cbn [run step]. rewrite E. cbn [snd].
    apply sleep_mode_some in E. destruct E as (_ & _ & E).
    apply next_change_later in E. cbn. lia.
  - exists 0%nat. left. split; [reflexivity | exact E].
Qed.

Lemma advance_held (s : mcu) :
  exists n, asleep pins (run pins n (AtHeld, s)) \/
            now s + 1000 <= now (snd (run pins n (AtHeld, s))).
Proof.
  destruct (pressed pins (now s) =? 0) eqn:E.
  - destruct (advance_sleep s) as [n H]. exists (S n).
    cbn [run step]. now rewrite E.
  - exists 1%nat. right. cbn [run step]. rewrite E. cbn [snd].
    rewrite now_repeatCode. unfold repeat_interval. lia.
Qed.

Lemma advance (p : pc) (s : mcu) :
  exists n, asleep pins (run pins n (p, s)) \/
            now s + 1000 <= now (snd (run pins n (p, s))).
Proof.
  destruct p.
  - apply advance_sleep.
  - exists 1%nat. right. cbn. lia.
  - destruct (advance_held (switch_buttons (uint8 (pressed pins (now s))) s))
      as [n H].
    exists (S n). cbn [run step].
    pose proof (now_switch (uint8 (pressed pins (now s))) s). 
    destruct H as [H|H]; [now left | right; lia].
  - apply advance_held.
Qed.

Lemma never_ends_from (k : nat) :
  forall p s,
    exists n, asleep pins (run pins n (p, s)) \/
              now s + Z.of_nat k * 1000 <= now (snd (run pins n (p, s))).
Proof.
  induction k as [|k IH]; intros p s.
  - exists 0%nat. right. cbn. lia.
  - destruct (advance p s) as [n1 [H|H]]; [exists n1; now left|].
    destruct (run pins n1 (p, s)) as [p1 s1] eqn:E1. cbn [snd] in H.
    destruct (IH p1 s1) as [n2 H2].
    exists (n1 + n2)%nat. rewrite run_add, E1.
    destruct H2 as [H2|H2]; [now left | right; lia].
Qed.

(** *** Repeat codes while a button is held *)

Lemma now_repeats (k : nat) :
  forall s, now (repeats k s) = now s + Z.of_nat k * repeat_interval.
Proof.
  induction k as [|k IH]; intros s; cbn [repeats]; [lia|].
  rewrite IH, now_repeatCode. lia.
Qed.

Lemma wave_repeats (k : nat) :
  forall s, lit s = false ->
            wave (repeats k s) = wave s ++ concat (repeat repeat_cycle k).
Proof.
  induction k as [|k IH]; intros s H; cbn [repeats repeat concat].
  - now rewrite app_nil_r.
  - rewrite IH by apply lit_repeatCode.
    rewrite repeatCode_wave, H. now rewrite <- app_assoc.
Qed.

Lemma held_run (k : nat) :
  forall s,
    (forall j, (j < k)%nat ->
               pressed pins (now s + Z.of_nat j * repeat_interval) <> 0) ->
    run pins k (AtHeld, s) = (AtHeld, repeats k s).
Proof.
  induction k as [|k IH]; intros s H; cbn [run step repeats]; [reflexivity|].
  pose proof (H 0%nat ltac:(lia)) as H0.
  replace (now s + Z.of_nat 0 * repeat_interval) with (now s) in H0 by lia.
  apply Z.eqb_neq in H0. rewrite H0. apply IH.
  intros j Hj. rewrite now_repeatCode.
  replace (now s + repeat_interval + Z.of_nat j * repeat_interval)
    with (now s + Z.of_nat (S j) * repeat_interval) by lia.
  apply H. lia.
Qed.

Lemma lead_starts_cycle (t : Z) (w : list seg) :
  lead_starts t (repeat_cycle ++ w)
  = (t + 40000) :: lead_starts (t + repeat_interval) w.
Proof.
  unfold lead_starts, repeat_cycle. cbn [app lit_starts filter map snd fst].
  cbn [Z.eqb Pos.eqb filter map fst]. f_equal.
  do 3 f_equal. unfold repeat_interval. lia.
Qed.

Lemma lead_starts_repeats (k : nat) :
  forall t,
    lead_starts t (concat (repeat repeat_cycle k))
    = map (fun j => t + 40000 + Z.of_nat j * repeat_interval) (seq 0 k).
Proof.
  induction k as [|k IH]; intros t; [reflexivity|].
  cbn [repeat concat]. rewrite lead_starts_cycle, IH.
  cbn [seq map]. f_equal; [lia|].
  rewrite <- seq_shift, map_map. apply map_ext. intros j. lia.
Qed.

(** Held until [t_rel], then released: the loop leaves at its first
    check at or after [t_rel]. *)
Lemma hold_release (t_rel : Z) (n : nat) :
  forall s,
    (forall t, now s <= t < t_rel -> pressed pins t <> 0) ->
    (forall t, t_rel <= t < t_rel + repeat_interval -> pressed pins t = 0) ->
    now s < t_rel + repeat_interval ->
    t_rel - now s <= Z.of_nat n * repeat_interval ->
    exists k,
      run pins (S k) (AtHeld, s) = (AtSleep, repeats k s) /\
      t_rel <= now (repeats k s) < t_rel + repeat_interval.
Proof.
  induction n as [|n IH]; intros s Hh Hr Hlt Hn.
  - exists 0%nat. cbn [run step repeats].
    rewrite (proj2 (Z.eqb_eq _ _) (Hr (now s) ltac:(lia))).
    split; [reflexivity | lia].
  - destruct (Z_lt_le_dec (now s) t_rel) as [L|L].
    + destruct (IH (repeatCode s)) as (k & R & B).
      * intros t Ht. rewrite now_repeatCode in Ht. apply Hh.
        unfold repeat_interval in *. lia.
      * exact Hr.
      * rewrite now_repeatCode. lia.
      * rewrite now_repeatCode. lia.
      * exists (S k). cbn [run step repeats].
        pose proof (Hh (now s) ltac:(lia)) as P. apply Z.eqb_neq in P.
        rewrite P. split; [exact R | exact B].
    + exists 0%nat. cbn [run step repeats].
      rewrite (proj2 (Z.eqb_eq _ _) (Hr (now s) ltac:(lia))).
      split; [reflexivity | lia].
Qed.

Lemma never_ends (p : pc) (s : mcu) (T : Z) :
  exists m, asleep pins (run pins m (p, s)) \/ T <= now (snd (run pins m (p, s))).
Proof.
  destruct (never_ends_from (Z.to_nat (T - now s)) p s) as [m [H|H]];
    exists m; [now left | right; lia].
Qed.

Lemma switch_mapped (b : Z) :
  switch_buttons b = if mapped b then sendCode (key_of b) else skip.
Proof.
  unfold switch_buttons, mapped, key_of.
  repeat (destruct (b =? _); cbn [orb]; [reflexivity|]).
  reflexivity.
Qed.

Lemma main_cfg (n : nat) : cfg (snd (main pins n)) = cfg (setup reset).
Proof. unfold main. now rewrite cfg_run. Qed.

Lemma no_start_pause (k : nat) :
  ~ In (false, 4500) (concat (repeat repeat_cycle k)).
Proof.
  intros H. apply in_concat in H. destruct H as (c & Hc & Hin).
  apply repeat_spec in Hc. subst c. unfold repeat_cycle in Hin.
  cbn [In] in Hin. intuition congruence.
Qed.

(** C5 (amended). A button mask that is none of the five
    single-button patterns sends no frame: the scan leaves the pin
    untouched.  While the lines then read active at the checks of the
    [while], [k] times say, repeat codes and nothing else are sent,
    and at the first check that reads them clear the loop goes back to
    sleep. *)
Theorem unmapped_sends_no_frame (s : mcu) (k : nat) :
  lit s = false ->
  mapped (uint8 (pressed pins (now s))) = false ->
  (forall j, (j < k)%nat ->
             pressed pins (now s + Z.of_nat j * repeat_interval) <> 0) ->
  pressed pins (now s + Z.of_nat k * repeat_interval) = 0 ->
  step pins (AtScan, s) = (AtHeld, s) /\
  run pins (S (S k)) (AtScan, s) = (AtSleep, repeats k s) /\
  wave (repeats k s) = wave s ++ concat (repeat repeat_cycle k) /\
  ~ In (false, 4500) (concat (repeat repeat_cycle k)).
Proof.
  intros Hd Hm Hh Hz.
  assert (E : step pins (AtScan, s) = (AtHeld, s)).
  { cbn [step]. now rewrite switch_mapped, Hm. }
  split; [exact E|]. split; [|split].
  - replace (S (S k)) with (1 + k + 1)%nat by lia.
    rewrite !run_add. cbn [run]. rewrite E, held_run by exact Hh.
    cbn [step]. rewrite now_repeats. now rewrite (proj2 (Z.eqb_eq _ _) Hz).
  - now apply wave_repeats.
  - apply no_start_pause.
Qed.

(** C6. Held until [t_rel] and released from then on, the loop sends
    [k] repeat codes, each the repeat marker (9000, 2250) and one stop
    burst; their leading bursts start [repeat_interval] apart, which is
    40 ms + the 12369 us of the repeat code + 56 ms = 108369 us; the
    loop goes to sleep at its first check after the release, less than
    one interval later. *)
Theorem repeat_cadence (s : mcu) (t_rel : Z) :
  lit s = false -> now s <= t_rel ->
  (forall t, now s <= t < t_rel -> pressed pins t <> 0) ->
  (forall t, t_rel <= t < t_rel + repeat_interval -> pressed pins t = 0) ->
  exists k,
    run pins (S k) (AtHeld, s) = (AtSleep, repeats k s) /\
    sent (repeats k) s = concat (repeat repeat_cycle k) /\
    demod repeat_cycle = [repeat_marker; (562, 557 + 56000)] /\
    lead_starts (now s) (sent (repeats k) s)
    = map (fun j => now s + 40000 + Z.of_nat j * repeat_interval) (seq 0 k) /\
    repeat_interval = 40000 + (9000 + 2250 + 562 + 557) + 56000 /\
    Z.abs (repeat_interval - 108000) <= 1080 /\
    t_rel <= now (repeats k s) < t_rel + repeat_interval.
Proof.
  intros Hd Hle Hh Hr.
  destruct (hold_release t_rel (Z.to_nat (t_rel - now s)) s Hh Hr)
    as (k & R & B).
  - unfold repeat_interval. lia.
  - unfold repeat_interval. lia.
  - exists k.
    assert (W : sent (repeats k) s = concat (repeat repeat_cycle k))
      by now apply sent_app, wave_repeats.
    split; [exact R|]. split; [exact W|]. split; [reflexivity|].
    split; [rewrite W; apply lead_starts_repeats|].
    split; [reflexivity|]. split; [cbn; lia | exact B].
Qed.

(** C7 (amended). TOP is the constant 31, the integer nearest to
    1200000 / 38000 - 1 = 30.58, so that the carrier period is 32
    clock ticks; DUTY is 7, so that the carrier is on for 8 of the 32
    ticks, 25 %.  [main] writes them to OCR0A and OCR0B before its loop
    and nothing in the loop changes the timer registers. *)
Theorem carrier_constants (n : nat) :
  TOP = 31 /\ DUTY = 7 /\
  2 * Z.abs ((TOP + 1) * 38000 - 1200000) <= 38000 /\
  4 * (DUTY + 1) = TOP + 1 /\
  OCR0A (io (setup reset)) = TOP /\ OCR0B (io (setup reset)) = DUTY /\
  OCR0A (io (snd (main pins n))) = TOP /\
  OCR0B (io (snd (main pins n))) = DUTY /\
  TCCR0A (io (snd (main pins n))) = 0x23 /\
  TCCR0B (io (snd (main pins n))) = 0x09.
Proof.
  pose proof (main_cfg n) as C.
  repeat split; try reflexivity; try (cbn; lia).
  - change (OCR0A (cfg (snd (main pins n))) = TOP). now rewrite C.
  - change (OCR0B (cfg (snd (main pins n))) = DUTY). now rewrite C.
  - change (TCCR0A (cfg (snd (main pins n))) = 0x23). now rewrite C.
  - change (TCCR0B (cfg (snd (main pins n))) = 0x09). now rewrite C.
Qed.

End MainLoop.

(** * Sample runs *)

Lemma pressed_one_button_held (t : Z) :
  2000 <= t < 200000 -> pressed one_button t <> 0.
Proof.
  intros Ht. unfold pressed, PINB, one_button. cbn [idle edges level_at].
  destruct (1000 <=? t) eqn:E1; [|apply Z.leb_gt in E1; lia].
  destruct (200000 <=? t) eqn:E2; [apply Z.leb_le in E2; lia|].
  vm_compute. discriminate.
Defined.

Lemma pressed_one_button_released (t : Z) :
  200000 <= t < 200000 + repeat_interval -> pressed one_button t = 0.
Proof.
  intros Ht. unfold pressed, PINB, one_button. cbn [idle edges level_at].
  destruct (1000 <=? t) eqn:E1; [|apply Z.leb_gt in E1; lia].
  destruct (200000 <=? t) eqn:E2; [|apply Z.leb_gt in E2; lia].
  reflexivity.
Defined.

Lemma pressed_two_buttons_checks (j : nat) :
  (j < 2)%nat ->
  pressed two_buttons (now awake_state + Z.of_nat j * repeat_interval) <> 0.
Proof.
  intros Hj. destruct j as [|[|j]]; [vm_compute; discriminate ..|lia].
Defined.

(** C5, as stated, fails: buttons 1 and 2 held together from 1 ms to
    200 ms give the mask 0b00000101 at the scan, which is none of the
    five patterns, and still two repeat codes go out before the
    processor sleeps again. *)
Lemma two_buttons_still_transmit :
  fst (main two_buttons 2) = AtScan /\
  uint8 (pressed two_buttons (now (snd (main two_buttons 2)))) = 0x05 /\
  mapped 0x05 = false /\
  fst (main two_buttons 7) = AtSleep /\
  demod (wave (snd (main two_buttons 7)))
  = [(9000, 2250); (562, 96557); (9000, 2250); (562, 56557)].
Proof. vm_compute. repeat split. Qed.

Lemma unmapped_sends_no_frame_witness :
  lit awake_state = false /\
  mapped (uint8 (pressed two_buttons (now awake_state))) = false /\
  (forall j, (j < 2)%nat ->
     pressed two_buttons (now awake_state + Z.of_nat j * repeat_interval) <> 0) /\
  pressed two_buttons (now awake_state + Z.of_nat 2 * repeat_interval) = 0 /\
  step two_buttons (AtScan, awake_state) = (AtHeld, awake_state) /\
  run two_buttons 4 (AtScan, awake_state) = (AtSleep, repeats 2 awake_state) /\
  wave (repeats 2 awake_state)
  = wave awake_state ++ concat (repeat repeat_cycle 2) /\
  ~ In (false, 4500) (concat (repeat repeat_cycle 2)).
Proof.
  assert (H1 : lit awake_state = false) by reflexivity.
  assert (H2 : mapped (uint8 (pressed two_buttons (now awake_state))) = false)
    by reflexivity.
  assert (H4 : pressed two_buttons
                 (now awake_state + Z.of_nat 2 * repeat_interval) = 0)
    by reflexivity.
  split; [exact H1|]. split; [exact H2|].
  split; [exact pressed_two_buttons_checks|]. split; [exact H4|].
  exact (unmapped_sends_no_frame two_buttons awake_state 2
           H1 H2 pressed_two_buttons_checks H4).
Defined.

Lemma repeat_cadence_witness :
  lit awake_state = false /\ now awake_state <= 200000 /\
  (forall t, now awake_state <= t < 200000 -> pressed one_button t <> 0) /\
  (forall t, 200000 <= t < 200000 + repeat_interval ->
             pressed one_button t = 0) /\
  exists k,
    run one_button (S k) (AtHeld, awake_state)
    = (AtSleep, repeats k awake_state) /\
    sent (repeats k) awake_state = concat (repeat repeat_cycle k) /\
    demod repeat_cycle = [repeat_marker; (562, 557 + 56000)] /\
    lead_starts (now awake_state) (sent (repeats k) awake_state)
    = map (fun j => now awake_state + 40000 + Z.of_nat j * repeat_interval)
          (seq 0 k) /\
    repeat_interval = 40000 + (9000 + 2250 + 562 + 557) + 56000 /\
    Z.abs (repeat_interval - 108000) <= 1080 /\
    200000 <= now (repeats k awake_state) < 200000 + repeat_interval.
Proof.
  assert (H1 : lit awake_state = false) by reflexivity.
  assert (H2 : now awake_state <= 200000) by (cbn; lia).
  split; [exact H1|]. split; [exact H2|].
  split; [exact pressed_one_button_held|].
  split; [exact pressed_one_button_released|].
  exact (repeat_cadence one_button awake_state 200000 H1 H2
           pressed_one_button_held pressed_one_button_released).
Defined.

(** C7, as stated, fails: the formula gives 30 in integer arithmetic
    and no integer at all as an exact quotient, while TOP is 31. *)
Lemma TOP_not_the_quotient :
  TOP <> 1200000 / 38000 - 1 /\ (TOP + 1) * 38000 <> 1200000.
Proof. split; vm_compute; discriminate. Qed.

(** * Further properties of the encoder *)

(** ** A byte can be read back *)

(** X1. The byte is recovered from the wave [sendByte] leaves, so two
    different 8-bit values never give the same wave. *)
Theorem sendByte_round_trip (v1 v2 : Z) (s1 s2 : mcu) :
  0 <= v1 < 256 -> 0 <= v2 < 256 ->
  byte_of_bits (map slot_bit (demod (sent (sendByte v1) s1))) = v1 /\
  (sent (sendByte v1) s1 = sent (sendByte v2) s2 -> v1 = v2).
Proof.
  intros H1 H2.
  assert (R : forall v s, 0 <= v < 256 ->
            byte_of_bits (map slot_bit (demod (sent (sendByte v) s))) = v).
  { intros v s Hv. rewrite sendByte_demod by exact Hv.
    unfold byte_slots. rewrite map_slot_bit_slots.
    apply (byte_of_bits_lsb 8). exact Hv. }
  split; [apply R, H1|].
  intros E. rewrite <- (R v1 s1 H1), <- (R v2 s2 H2). now rewrite E.
Qed.

Lemma sendByte_round_trip_witness :
  0 <= 0xB0 < 256 /\ 0 <= 0x4F < 256 /\
  byte_of_bits (map slot_bit (demod (sent (sendByte 0xB0) reset))) = 0xB0 /\
  (sent (sendByte 0xB0) reset = sent (sendByte 0x4F) awake_state -> 0xB0 = 0x4F).
Proof.
  assert (H1 : 0 <= 0xB0 < 256) by lia.
  assert (H2 : 0 <= 0x4F < 256) by lia.
  split; [exact H1|]. split; [exact H2|].
  exact (sendByte_round_trip 0xB0 0x4F reset awake_state H1 H2).
Defined.

(** ** How long sending takes *)

Lemma now_sendByte_loop_eq (i : nat) :
  forall v s,
    now (sendByte_loop i v s)
    = now s + Z.of_nat i * (562 + 557) + 1120 * ones (loop_bits i v).
Proof.
  induction i as [|i IH]; intros v s; cbn [sendByte_loop loop_bits ones].
  - lia.
  - rewrite IH, Nat2Z.inj_succ. as_pulses.
    destruct (Z.land v 1 =? 0); unfold bit1Pause; cbn [negb Z.b2z _delay_us now];
      rewrite pulse_now; lia.
Qed.

Lemma ones_negb (bs : list bool) :
  ones (map negb bs) = Z.of_nat (length bs) - ones bs.
Proof.
  induction bs as [|b bs IH]; [reflexivity|].
  cbn [map ones length]. rewrite IH, Nat2Z.inj_succ.
  destruct b; cbn [negb Z.b2z]; lia.
Qed.

Lemma ones_bounds (bs : list bool) : 0 <= ones bs <= Z.of_nat (length bs).
Proof.
  induction bs as [|b bs IH]; cbn [ones length]; [lia|].
  rewrite Nat2Z.inj_succ. destruct b; cbn [Z.b2z]; lia.
Qed.

Lemma bits_lsb_inverse (v : Z) : bits_lsb 8 (inverse v) = map negb (bits_lsb 8 v).
Proof.
  unfold bits_lsb. rewrite map_map. apply map_ext_in. intros j Hj.
  apply in_seq in Hj. unfold inverse. change 0xFF with (Z.ones 8).
  rewrite Z.land_spec, Z.lnot_spec, Z.ones_spec_low by lia.
  apply Bool.andb_true_r.
Qed.

(** X2. Sending a byte takes 8 pulses of 562 + 557 us and 1120 us more
    for each of its 1 bits: between 8952 and 17912 us. *)
Theorem sendByte_time (v : Z) (s : mcu) :
  0 <= v < 256 ->
  now (sendByte v s) = now s + 8 * (562 + 557) + 1120 * popcount v /\
  now s + 8952 <= now (sendByte v s) <= now s + 17912.
Proof.
  intros Hv. unfold sendByte, popcount.
  rewrite now_sendByte_loop_eq, loop_bits_lsb by exact Hv.
  pose proof (ones_bounds (bits_lsb 8 v)) as B.
  rewrite length_bits_lsb in B. split; lia.
Qed.

Lemma sendByte_time_witness :
  0 <= 0xB0 < 256 /\
  now (sendByte 0xB0 reset) = now reset + 8 * (562 + 557) + 1120 * popcount 0xB0 /\
  now reset + 8952 <= now (sendByte 0xB0 reset) <= now reset + 17912.
Proof.
  assert (H : 0 <= 0xB0 < 256) by lia.
  split; [exact H | exact (sendByte_time 0xB0 reset H)].
Defined.

Lemma popcount_inverse (v : Z) : popcount v + popcount (inverse v) = 8.
Proof.
  unfold popcount. rewrite bits_lsb_inverse, ones_negb, length_bits_lsb. lia.
Qed.

Lemma now_sendCode_eq (code : Z) (s : mcu) :
  0 <= code < 256 -> now (sendCode code s) = now s + frame_time.
Proof.
  intros Hc. unfold sendCode, seq_cmd, sendByte. as_pulses.
  rewrite pulse_now, !now_sendByte_loop_eq, pulse_now.
  rewrite !uint8_lnot_inverse.
  rewrite (loop_bits_lsb 8 ADDR ADDR_range).
  rewrite (loop_bits_lsb 8 (inverse ADDR) (inverse_range ADDR)).
  rewrite (loop_bits_lsb 8 code Hc).
  rewrite (loop_bits_lsb 8 (inverse code) (inverse_range code)).
  pose proof (popcount_inverse ADDR) as PA.
  pose proof (popcount_inverse code) as PC.
  unfold popcount in PA, PC. unfold frame_time. lia.
Qed.

(** X3. Every frame takes the same time, 68347 us, whatever the
    command: a byte and its complement have 8 one bits between them. *)
Theorem sendCode_time (code : Z) (s : mcu) :
  0 <= code < 256 ->
  now (sendCode code s) = now s + 68347 /\
  popcount code + popcount (inverse code) = 8.
Proof.
  intros Hc. split; [|apply popcount_inverse].
  rewrite now_sendCode_eq by exact Hc. reflexivity.
Qed.

Lemma sendCode_time_witness :
  0 <= KEY3 < 256 /\
  now (sendCode KEY3 reset) = now reset + 68347 /\
  popcount KEY3 + popcount (inverse KEY3) = 8.
Proof.
  assert (H : 0 <= KEY3 < 256) by (unfold KEY3; lia).
  split; [exact H | exact (sendCode_time KEY3 reset H)].
Defined.

(** ** What sending does to the registers *)

Lemma io_pulse (m sp : Z) (s : mcu) : io (pulse m sp s) = led_off (io s).
Proof.
  unfold pulse, seq_cmd, led_off, IRoff, IRon, with_io, _delay_us, set_DDRB.
  cbn [io DDRB PORTB TCCR0A TCCR0B OCR0A OCR0B GIMSK PCMSK SREG ADCSRA ACSR
       PRR sleep_sel].
  rewrite Z.land_lor_distr_l. change (Z.land 0x02 0xFD) with 0.
  now rewrite Z.lor_0_r.
Qed.

Lemma led_off_idem (r : regs) : led_off (led_off r) = led_off r.
Proof.
  unfold led_off, set_DDRB.
  cbn [DDRB PORTB TCCR0A TCCR0B OCR0A OCR0B GIMSK PCMSK SREG ADCSRA ACSR
       PRR sleep_sel].
  rewrite <- Z.land_assoc. reflexivity.
Qed.

Lemma io_sendByte_loop (i : nat) :
  forall v s r, io s = led_off r -> io (sendByte_loop i v s) = led_off r.
Proof.
  induction i as [|i IH]; intros v s r H; cbn [sendByte_loop]; [exact H|].
  apply IH. as_pulses.
  destruct (Z.land v 1 =? 0); unfold bit1Pause; cbn [_delay_us io];
    now rewrite io_pulse, H, led_off_idem.
Qed.

Lemma io_sendCode (code : Z) (s : mcu) : io (sendCode code s) = led_off (io s).
Proof.
  unfold sendCode, seq_cmd, sendByte. as_pulses.
  rewrite io_pulse.
  rewrite (io_sendByte_loop 8 _ _ (io s)); [apply led_off_idem|].
  do 3 (apply io_sendByte_loop). apply io_pulse.
Qed.

Lemma io_repeatCode (s : mcu) : io (repeatCode s) = led_off (io s).
Proof.
  unfold repeatCode, seq_cmd, _delay_ms. as_pulses. cbn [_delay_us io].
  rewrite !io_pulse. cbn [_delay_us io]. apply led_off_idem.
Qed.

(** X4. [sendCode] and [repeatCode] change nothing in the registers
    but the direction of PB1, which they leave an input (LED off): the
    other bits of DDRB, so the button pins, keep their direction. *)
Theorem sending_keeps_registers (code : Z) (s : mcu) :
  io (sendCode code s) = set_DDRB (Z.land (DDRB (io s)) 0xFD) (io s) /\
  io (repeatCode s) = set_DDRB (Z.land (DDRB (io s)) 0xFD) (io s) /\
  lit (sendCode code s) = false /\ lit (repeatCode s) = false /\
  (forall j, 0 <= j < 8 -> j <> 1 ->
     Z.testbit (DDRB (io (sendCode code s))) j = Z.testbit (DDRB (io s)) j /\
     Z.testbit (DDRB (io (repeatCode s))) j = Z.testbit (DDRB (io s)) j).
Proof.
  pose proof (io_sendCode code s) as C. pose proof (io_repeatCode s) as R.
  split; [exact C|]. split; [exact R|].
  split; [apply lit_sendCode|]. split; [apply lit_repeatCode|].
  intros j Hj Hn. rewrite C, R. unfold led_off, set_DDRB. cbn [DDRB].
  assert (B : Z.testbit 0xFD j = true).
  { assert (Hc : j = 0 \/ j = 2 \/ j = 3 \/ j = 4 \/ j = 5 \/ j = 6 \/ j = 7)
      by lia.
    destruct Hc as [->|[->|[->|[->|[->|[->| ->]]]]]]; reflexivity. }
  rewrite Z.land_spec, B, Bool.andb_true_r. now split.
Qed.

(** * Further properties of the main loop *)

(** ** Registers and LED over a whole run *)

Lemma led_off_setup : led_off (io (setup reset)) = io (setup reset).
Proof. vm_compute. reflexivity. Qed.

Lemma io_switch (b : Z) (s : mcu) :
  io s = io (setup reset) -> io (switch_buttons b s) = io (setup reset).
Proof.
  intros H. rewrite switch_mapped. destruct (mapped b); [|exact H].
  now rewrite io_sendCode, H, led_off_setup.
Qed.

Lemma io_step (pins : signal) (c : pc * mcu) :
  io (snd c) = io (setup reset) ->
  io (snd (step pins c)) = io (setup reset).
Proof.
  destruct c as [[] s]; cbn [step snd]; intros H.
  - destruct (sleep_mode pins s) as [s1|] eqn:E; [|exact H].
    apply sleep_mode_some in E. cbn [snd]. now destruct E as [-> _].
  - exact H.
  - now apply io_switch.
  - destruct (pressed pins (now s) =? 0); cbn [snd]; [exact H|].
    now rewrite io_repeatCode, H, led_off_setup.
Qed.

Lemma io_run (pins : signal) (n : nat) :
  forall c, io (snd c) = io (setup reset) ->
            io (snd (run pins n c)) = io (setup reset).
Proof.
  induction n as [|n IH]; intros c Hc; cbn [run]; [exact Hc|].
  now apply IH, io_step.
Qed.

(** X5. Between any two statements of the main loop the registers are
    exactly as the set-up left them: all pins inputs, pull-ups on the
    button pins, timer, interrupt masks and sleep mode unchanged. *)
Theorem main_keeps_setup (pins : signal) (n : nat) :
  io (snd (main pins n)) = io (setup reset) /\
  DDRB (io (snd (main pins n))) = 0x00 /\
  PORTB (io (snd (main pins n))) = 0x3D /\
  PCMSK (io (snd (main pins n))) = 0x3D.
Proof.
  assert (H : io (snd (main pins n)) = io (setup reset))
    by (unfold main; apply io_run; reflexivity).
  rewrite H. split; [reflexivity|]. vm_compute. repeat split.
Qed.

Lemma led_ok_app (w1 : list seg) :
  forall a w2,
    led_ok a w1 = true -> led_ok false w2 = true -> led_ok a (w1 ++ w2) = true.
Proof.
  induction w1 as [|[[] d] w1 IH]; intros a w2 H1 H2; cbn [app led_ok] in *.
  - destruct a; [discriminate | exact H2].
  - apply andb_prop in H1. destruct H1 as [H1 H3]. rewrite H1. cbn [andb].
    now apply IH.
  - apply andb_prop in H1. destruct H1 as [H1 H3]. rewrite H1. cbn [andb].
    now apply IH.
Qed.

Lemma led_ok_bits_wave (i : nat) : forall v, led_ok false (bits_wave i v) = true.
Proof.
  induction i as [|i IH]; intros v; [reflexivity|].
  cbn [bits_wave]. destruct (Z.land v 1 =? 0); cbn [app led_ok];
    rewrite IH; reflexivity.
Qed.

Lemma led_ok_frame_wave (code : Z) : led_ok false (frame_wave code) = true.
Proof.
  unfold frame_wave.
  apply (led_ok_app [(true, 9000); (false, 4500)]); [reflexivity|].
  repeat (apply led_ok_app; [apply led_ok_bits_wave|]). reflexivity.
Qed.

Lemma led_ok_lit (w : list seg) :
  forall a d, led_ok a w = true -> In (true, d) w -> d = 9000 \/ d = 562.
Proof.
  induction w as [|[[] m] w IH]; intros a d H Hin; cbn [led_ok In] in *.
  - contradiction.
  - apply andb_prop in H. destruct H as [H H2].
    apply andb_prop in H. destruct H as [_ H1].
    destruct Hin as [E|Hin]; [|now apply (IH true)].
    injection E as <-. apply Bool.orb_prop in H1.
    destruct H1 as [H1|H1]; apply Z.eqb_eq in H1; auto.
  - apply andb_prop in H. destruct H as [_ H2].
    destruct Hin as [E|Hin]; [discriminate | now apply (IH false)].
Qed.

Lemma led_ok_step (pins : signal) (c : pc * mcu) :
  lit (snd c) = false -> led_ok false (wave (snd c)) = true ->
  led_ok false (wave (snd (step pins c))) = true.
Proof.
  destruct c as [[] s]; cbn [step snd]; intros Hd Hw.
  - destruct (sleep_mode pins s) as [s1|] eqn:E; [|exact Hw].
    apply sleep_mode_some in E. cbn [snd]. destruct E as (_ & -> & _).
    rewrite Hd. now apply led_ok_app.
  - unfold _delay_ms. cbn [_delay_us wave]. rewrite Hd. now apply led_ok_app.
  - rewrite switch_mapped. destruct (mapped _); [|exact Hw].
    rewrite sendCode_wave. apply led_ok_app; [exact Hw|apply led_ok_frame_wave].
  - destruct (pressed pins (now s) =? 0); cbn [snd]; [exact Hw|].
    rewrite repeatCode_wave, Hd. now apply led_ok_app.
Qed.

(** X6. In every run of [main] a carrier burst lasts 9000 or 562 us
    and is followed by a pause: the LED is never lit for more than
    9 ms at a stretch and never left lit between statements. *)
Theorem main_led_bursts (pins : signal) (n : nat) :
  led_ok false (wave (snd (main pins n))) = true /\
  lit (snd (main pins n)) = false /\
  (forall d, In (true, d) (wave (snd (main pins n))) -> d = 9000 \/ d = 562).
Proof.
  assert (H : forall c,
             lit (snd c) = false -> led_ok false (wave (snd c)) = true ->
             led_ok false (wave (snd (run pins n c))) = true).
  { induction n as [|n IH]; intros c Hd Hw; cbn [run]; [exact Hw|].
    apply IH; [now apply lit_step | now apply led_ok_step]. }
  assert (W : led_ok false (wave (snd (main pins n))) = true)
    by (apply H; reflexivity).
  split; [exact W|]. split; [apply lit_run; reflexivity|].
  intros d. exact (led_ok_lit _ false d W).
Qed.

(** ** One press of a button, from reset to sleep *)

Lemma wake_mask_setup : wake_mask (io (setup reset)) = 0x3D.
Proof. vm_compute. reflexivity. Qed.

Lemma lit_scan_state (t0 : Z) : lit (scan_state t0) = false.
Proof. unfold lit, scan_state. cbn [io]. vm_compute. reflexivity. Qed.

Lemma lnot_land_nonzero (x m : Z) : Z.land (Z.lnot x) m <> 0 -> Z.land x m <> m.
Proof.
  intros H E. apply H. apply Z.bits_inj'. intros n Hn.
  rewrite Z.land_spec, Z.lnot_spec, Z.bits_0 by lia.
  apply (f_equal (fun z => Z.testbit z n)) in E. rewrite Z.land_spec in E.
  destruct (Z.testbit x n), (Z.testbit m n); cbn in *; congruence.
Qed.

Lemma mapped_cases (b : Z) :
  mapped b = true -> b = 1 \/ b = 4 \/ b = 8 \/ b = 16 \/ b = 32.
Proof.
  unfold mapped. intros H.
  repeat (apply Bool.orb_prop in H; destruct H as [H|H]);
    apply Z.eqb_eq in H; lia.
Qed.

Lemma pressed_single_during (lvl t0 t1 t : Z) :
  t0 <= t < t1 -> pressed (single_press lvl t0 t1) t = Z.land (Z.lnot lvl) 0x3D.
Proof.
  intros H. unfold pressed, PINB, single_press. cbn [idle edges level_at].
  rewrite (proj2 (Z.leb_le t0 t)) by lia.
  rewrite (proj2 (Z.leb_gt t1 t)) by lia. reflexivity.
Qed.

Lemma pressed_single_after (lvl t0 t1 t : Z) :
  t0 <= t1 -> t1 <= t -> pressed (single_press lvl t0 t1) t = 0.
Proof.
  intros H0 H. unfold pressed, PINB, single_press. cbn [idle edges level_at].
  rewrite (proj2 (Z.leb_le t0 t)) by lia.
  rewrite (proj2 (Z.leb_le t1 t)) by lia. reflexivity.
Qed.

Lemma sleep_single_done (lvl t0 t1 : Z) (s : mcu) :
  t0 < t1 -> t1 <= now s -> sleep_mode (single_press lvl t0 t1) s = None.
Proof.
  intros H0 H. unfold sleep_mode, single_press. cbn [idle edges next_change].
  rewrite (proj2 (Z.ltb_ge (now s) t0)) by lia. cbn [andb].
  rewrite (proj2 (Z.ltb_ge (now s) t1)) by lia. reflexivity.
Qed.

(** The first change of a button pin ends the sleep; 1 ms later the
    scan takes place. *)
Lemma run_scan_from (lvl t0 t1 : Z) (s0 : mcu) :
  now s0 = 0 -> wave s0 = [] -> lit s0 = false ->
  wake_mask (io s0) = 0x3D ->
  0 < t0 -> Z.land lvl 0x3D <> 0x3D ->
  run (single_press lvl t0 t1) 2 (AtSleep, s0)
  = (AtScan, mkMcu (io s0) (t0 + 1000) [(false, t0); (false, 1000)]).
Proof.
  intros Hn Hw Hl Hm H0 Hd.
  assert (S1 : sleep_mode (single_press lvl t0 t1) s0
               = Some (mkMcu (io s0) t0 [(false, t0)])).
  { unfold sleep_mode. rewrite Hm, Hn, Hw, Hl.
    unfold single_press. cbn [idle edges next_change].
    rewrite (proj2 (Z.ltb_lt 0 t0) H0).
    change (Z.land 0x3D 0x3D) with 0x3D.
    rewrite (proj2 (Z.eqb_neq _ _) Hd). cbn [andb negb app].
    now rewrite Z.sub_0_r. }
  cbn [run step]. rewrite S1. cbn [step].
  unfold _delay_ms, _delay_us, lit. cbn [io now wave app].
  unfold lit in Hl. rewrite Hl. reflexivity.
Qed.

Lemma run_single_scan (lvl t0 t1 : Z) :
  0 < t0 -> Z.land lvl 0x3D <> 0x3D ->
  run (single_press lvl t0 t1) 2 (AtSleep, setup reset) = (AtScan, scan_state t0).
Proof.
  intros H0 Hd.
  apply (run_scan_from lvl t0 t1 (setup reset)); try assumption;
    vm_compute; reflexivity.
Qed.

(** X8. A press that ends within the 1 ms of debounce wakes the
    processor but sends nothing: the scan reads no button, the LED
    stays dark, and the processor sleeps again with no pin change
    ahead. *)
Theorem short_press_sends_nothing (lvl t0 t1 : Z) :
  0 < t0 -> t0 < t1 <= t0 + 1000 -> Z.land lvl 0x3D <> 0x3D ->
  main (single_press lvl t0 t1) 4 = (AtSleep, scan_state t0) /\
  wave (scan_state t0) = [(false, t0); (false, 1000)] /\
  sleep_mode (single_press lvl t0 t1) (scan_state t0) = None.
Proof.
  intros H0 H1 Hd.
  assert (P : pressed (single_press lvl t0 t1) (now (scan_state t0)) = 0)
    by (apply pressed_single_after; cbn [scan_state now]; lia).
  split; [|split; [reflexivity|]].
  - unfold main. change 4%nat with (2 + 2)%nat.
    rewrite run_add, run_single_scan by assumption.
    cbn [run step]. rewrite P. change (uint8 0) with 0.
    rewrite switch_mapped. change (mapped 0) with false. cbv beta iota.
    unfold skip. now rewrite P.
  - apply sleep_single_done; cbn [scan_state now]; lia.
Qed.

Lemma short_press_sends_nothing_witness :
  0 < 1000 /\ 1000 < 1400 <= 1000 + 1000 /\ Z.land 0x3C 0x3D <> 0x3D /\
  main (single_press 0x3C 1000 1400) 4 = (AtSleep, scan_state 1000) /\
  wave (scan_state 1000) = [(false, 1000); (false, 1000)] /\
  sleep_mode (single_press 0x3C 1000 1400) (scan_state 1000) = None.
Proof.
  assert (H0 : 0 < 1000) by lia.
  assert (H1 : 1000 < 1400 <= 1000 + 1000) by lia.
  assert (Hd : Z.land 0x3C 0x3D <> 0x3D) by (vm_compute; discriminate).
  split; [exact H0|]. split; [exact H1|]. split; [exact Hd|].
  exact (short_press_sends_nothing 0x3C 1000 1400 H0 H1 Hd).
Defined.

Lemma key_of_range (b : Z) : 0 <= key_of b < 256.
Proof.
  unfold key_of.
  repeat match goal with |- context [if ?c then _ else _] => destruct c end;
    vm_compute; split; congruence.
Qed.

(** X7. One button pressed alone at [t0] and held past the debounce,
    until [t1]: the processor wakes at [t0], waits 1 ms, sends the
    frame of that button, then [k] repeat codes, and sleeps for good;
    it goes to sleep at the first check of the lines at or after the
    release, which is right after the frame ([k = 0]) when the button
    was released by then, and less than one repeat interval after the
    release otherwise. *)
Theorem single_press_run (lvl t0 t1 : Z) :
  0 < t0 -> t0 + 1000 < t1 ->
  mapped (Z.land (Z.lnot lvl) 0x3D) = true ->
  exists k,
    main (single_press lvl t0 t1) (4 + k)
    = (AtSleep,
       repeats k (sendCode (key_of (Z.land (Z.lnot lvl) 0x3D)) (scan_state t0))) /\
    wave (repeats k (sendCode (key_of (Z.land (Z.lnot lvl) 0x3D)) (scan_state t0)))
    = [(false, t0); (false, 1000)] ++
      frame_wave (key_of (Z.land (Z.lnot lvl) 0x3D)) ++
      concat (repeat repeat_cycle k) /\
    now (repeats k (sendCode (key_of (Z.land (Z.lnot lvl) 0x3D)) (scan_state t0)))
    = t0 + 1000 + 68347 + Z.of_nat k * repeat_interval /\
    t1 <= t0 + 1000 + 68347 + Z.of_nat k * repeat_interval /\
    (k = 0%nat \/
     t0 + 1000 + 68347 + Z.of_nat k * repeat_interval < t1 + repeat_interval) /\
    sleep_mode (single_press lvl t0 t1)
      (repeats k (sendCode (key_of (Z.land (Z.lnot lvl) 0x3D)) (scan_state t0)))
    = None.
Proof.
  intros H0 H1 Hm.
  set (b := Z.land (Z.lnot lvl) 0x3D) in *.
  set (pins := single_press lvl t0 t1).
  set (s3 := sendCode (key_of b) (scan_state t0)).
  assert (Hb : b <> 0) by (apply mapped_cases in Hm; lia).
  assert (Hu : uint8 b = b)
    by (apply mapped_cases in Hm; unfold uint8; apply Z.mod_small; lia).
  assert (Hd : Z.land lvl 0x3D <> 0x3D) by (apply lnot_land_nonzero; exact Hb).
  assert (N3 : now s3 = t0 + 1000 + 68347).
  { unfold s3. rewrite now_sendCode_eq by apply key_of_range. reflexivity. }
  assert (L3 : lit s3 = false) by apply lit_sendCode.
  assert (W3 : wave s3 = [(false, t0); (false, 1000)] ++ frame_wave (key_of b))
    by (unfold s3; apply sendCode_wave).
  assert (R3 : run pins 3 (AtSleep, setup reset) = (AtHeld, s3)).
  { change 3%nat with (2 + 1)%nat. unfold pins.
    rewrite run_add, run_single_scan by assumption. cbn [run step].
    rewrite pressed_single_during by (cbn [scan_state now]; lia).
    fold b. rewrite Hu, switch_mapped, Hm. reflexivity. }
  assert (F : forall k,
             run pins (S k) (AtHeld, s3) = (AtSleep, repeats k s3) ->
             t1 <= now (repeats k s3) ->
             (k = 0%nat \/ now (repeats k s3) < t1 + repeat_interval) ->
             exists k',
               main pins (4 + k') = (AtSleep, repeats k' s3) /\
               wave (repeats k' s3)
               = [(false, t0); (false, 1000)] ++ frame_wave (key_of b) ++
                 concat (repeat repeat_cycle k') /\
               now (repeats k' s3)
               = t0 + 1000 + 68347 + Z.of_nat k' * repeat_interval /\
               t1 <= t0 + 1000 + 68347 + Z.of_nat k' * repeat_interval /\
               (k' = 0%nat \/
                t0 + 1000 + 68347 + Z.of_nat k' * repeat_interval
                < t1 + repeat_interval) /\
               sleep_mode pins (repeats k' s3) = None).
  { intros k Rk Bk Ck. exists k.
    pose proof (now_repeats k s3) as Nk. rewrite N3 in Nk.
    split; [|split; [|split; [|split; [|split]]]].
    - unfold main. replace (4 + k)%nat with (3 + S k)%nat by lia.
      now rewrite run_add, R3.
    - rewrite wave_repeats by exact L3. rewrite W3. now rewrite <- app_assoc.
    - exact Nk.
    - rewrite <- Nk. exact Bk.
    - rewrite <- Nk. exact Ck.
    - apply sleep_single_done; [lia | exact Bk]. }
  destruct (Z_lt_le_dec (now s3) t1) as [L|L].
  - destruct (hold_release pins t1 (Z.to_nat (t1 - now s3)) s3) as (k & Rk & Bk).
    + intros t Ht. unfold pins. rewrite pressed_single_during by lia. exact Hb.
    + intros t Ht. unfold pins. apply pressed_single_after; lia.
    + unfold repeat_interval. lia.
    + unfold repeat_interval. lia.
    + apply (F k Rk); [lia | right; lia].
  - apply (F 0%nat); [|exact L | now left].
    cbn [run step repeats]. unfold pins.
    now rewrite pressed_single_after by lia.
Qed.

Lemma single_press_run_witness :
  0 < 1000 /\ 1000 + 1000 < 200000 /\
  mapped (Z.land (Z.lnot 0x1D) 0x3D) = true /\
  exists k,
    main (single_press 0x1D 1000 200000) (4 + k)
    = (AtSleep,
       repeats k (sendCode (key_of (Z.land (Z.lnot 0x1D) 0x3D)) (scan_state 1000))) /\
    wave (repeats k (sendCode (key_of (Z.land (Z.lnot 0x1D) 0x3D)) (scan_state 1000)))
    = [(false, 1000); (false, 1000)] ++
      frame_wave (key_of (Z.land (Z.lnot 0x1D) 0x3D)) ++
      concat (repeat repeat_cycle k) /\
    now (repeats k (sendCode (key_of (Z.land (Z.lnot 0x1D) 0x3D)) (scan_state 1000)))
    = 1000 + 1000 + 68347 + Z.of_nat k * repeat_interval /\
    200000 <= 1000 + 1000 + 68347 + Z.of_nat k * repeat_interval /\
    (k = 0%nat \/
     1000 + 1000 + 68347 + Z.of_nat k * repeat_interval < 200000 + repeat_interval) /\
    sleep_mode (single_press 0x1D 1000 200000)
      (repeats k (sendCode (key_of (Z.land (Z.lnot 0x1D) 0x3D)) (scan_state 1000)))
    = None.
Proof.
  assert (H0 : 0 < 1000) by lia.
  assert (H1 : 1000 + 1000 < 200000) by lia.
  assert (Hm : mapped (Z.land (Z.lnot 0x1D) 0x3D) = true) by reflexivity.
  split; [exact H0|]. split; [exact H1|]. split; [exact Hm|].
  exact (single_press_run 0x1D 1000 200000 H0 H1 Hm).
Defined.

(** ** A button that stays down, and pins that are no buttons *)

(** X9. While a button line reads active at every check, the loop
    never returns to [sleep_mode()]: after [k] turns it is still in
    the [while], [k] repeat intervals later, having sent [k] repeat
    codes. *)
Theorem stuck_button_repeats (pins : signal) (s : mcu) (k : nat) :
  lit s = false ->
  (forall t, now s <= t -> pressed pins t <> 0) ->
  run pins k (AtHeld, s) = (AtHeld, repeats k s) /\
  now (repeats k s) = now s + Z.of_nat k * repeat_interval /\
  wave (repeats k s) = wave s ++ concat (repeat repeat_cycle k).
Proof.
  intros Hd Hp. split; [|split].
  - apply held_run. intros j _. apply Hp. unfold repeat_interval. lia.
  - apply now_repeats.
  - now apply wave_repeats.
Qed.

Lemma stuck_button_repeats_witness :
  lit awake_state = false /\
  (forall t, now awake_state <= t -> pressed stuck_button t <> 0) /\
  run stuck_button 3 (AtHeld, awake_state) = (AtHeld, repeats 3 awake_state) /\
  now (repeats 3 awake_state) = now awake_state + Z.of_nat 3 * repeat_interval /\
  wave (repeats 3 awake_state)
  = wave awake_state ++ concat (repeat repeat_cycle 3).
Proof.
  assert (H1 : lit awake_state = false) by reflexivity.
  assert (H2 : forall t, now awake_state <= t -> pressed stuck_button t <> 0)
    by (intros t _; vm_compute; discriminate).
  split; [exact H1|]. split; [exact H2|].
  exact (stuck_button_repeats stuck_button awake_state 3 H1 H2).
Defined.

Lemma next_change_none (mask m0 : Z) (es : list (Z * Z)) :
  forall v t,
    Z.land v mask = m0 ->
    (forall te ve, In (te, ve) es -> Z.land ve mask = m0) ->
    next_change mask v es t = None.
Proof.
  induction es as [|[t1 v1] es IH]; intros v t Hv He; cbn [next_change];
    [reflexivity|].
  assert (E1 : Z.land v1 mask = m0) by (apply (He t1); now left).
  rewrite E1, Hv, Z.eqb_refl, Bool.andb_false_r.
  apply IH; [exact E1|]. intros te ve Hin. apply (He te). now right.
Qed.

(** X10. Changes on pins that are no button pins (PB1, PB6, PB7)
    never end the sleep: if the five button lines keep their level,
    [main] stays in its first [sleep_mode()] for ever, with nothing
    sent. *)
Theorem other_pins_never_wake (pins : signal) (n : nat) :
  (forall te ve, In (te, ve) (edges pins) ->
                 Z.land ve 0x3D = Z.land (idle pins) 0x3D) ->
  main pins n = (AtSleep, setup reset) /\ wave (snd (main pins n)) = [].
Proof.
  intros He.
  assert (M : main pins n = (AtSleep, setup reset)).
  { unfold main. apply asleep_stays. unfold sleep_mode.
    rewrite wake_mask_setup.
    now rewrite (next_change_none 0x3D (Z.land (idle pins) 0x3D)). }
  rewrite M. split; reflexivity.
Qed.

Lemma other_pins_never_wake_witness :
  (forall te ve, In (te, ve) (edges other_pins) ->
                 Z.land ve 0x3D = Z.land (idle other_pins) 0x3D) /\
  main other_pins 5 = (AtSleep, setup reset) /\
  wave (snd (main other_pins 5)) = [].
Proof.
  assert (He : forall te ve, In (te, ve) (edges other_pins) ->
                 Z.land ve 0x3D = Z.land (idle other_pins) 0x3D).
  { intros te ve [E|[E|[]]]; injection E as <- <-; reflexivity. }
  split; [exact He | exact (other_pins_never_wake other_pins 5 He)].
Defined.

(** ** The five buttons *)

(** X11. The frame a single-button mask sends carries the address and
    the command of that button with their complements, and two
    different single-button masks never send the same frame. *)
Theorem buttons_send_distinct_frames (b1 b2 : Z) (s1 s2 : mcu) :
  mapped b1 = true -> mapped b2 = true ->
  frame_bytes (demod (sent (switch_buttons b1) s1))
  = [ADDR; inverse ADDR; key_of b1; inverse (key_of b1)] /\
  (sent (switch_buttons b1) s1 = sent (switch_buttons b2) s2 -> b1 = b2).
Proof.
  intros H1 H2.
  assert (D : forall b s, mapped b = true ->
            frame_bytes (demod (sent (switch_buttons b) s))
            = [ADDR; inverse ADDR; key_of b; inverse (key_of b)]).
  { intros b s Hb. rewrite switch_mapped, Hb.
    rewrite sendCode_demod by apply key_of_range.
    apply frame_bytes_nec_frame; [apply ADDR_range | apply key_of_range]. }
  split; [apply D, H1|].
  intros E. pose proof (D b1 s1 H1) as D1. rewrite E, (D b2 s2 H2) in D1.
  assert (K : key_of b2 = key_of b1) by congruence.
  apply mapped_cases in H1. apply mapped_cases in H2.
  destruct H1 as [->|[->|[->|[->| ->]]]];
    destruct H2 as [->|[->|[->|[->| ->]]]];
    first [reflexivity | vm_compute in K; discriminate].
Qed.

Lemma buttons_send_distinct_frames_witness :
  mapped 0x01 = true /\ mapped 0x20 = true /\
  frame_bytes (demod (sent (switch_buttons 0x01) reset))
  = [ADDR; inverse ADDR; key_of 0x01; inverse (key_of 0x01)] /\
  (sent (switch_buttons 0x01) reset = sent (switch_buttons 0x20) awake_state ->
   0x01 = 0x20).
Proof.
  assert (H1 : mapped 0x01 = true) by reflexivity.
  assert (H2 : mapped 0x20 = true) by reflexivity.
  split; [exact H1|]. split; [exact H2|].
  exact (buttons_send_distinct_frames 0x01 0x20 reset awake_state H1 H2).
Defined.

(** * A pass of the main loop, from sleep to sleep *)

(** ** When [sleep_mode()] returns *)

Lemma level_at_before (v : Z) (es : list (Z * Z)) (x : Z) :
  match es with
  | [] => True
  | (t2, _) :: _ => x < t2
  end ->
  level_at v es x = v.
Proof.
  destruct es as [|[t2 v2] es]; [reflexivity|]. intros H. cbn [level_at].
  now rewrite (proj2 (Z.leb_gt t2 x)).
Qed.

Lemma ordered_tail (t1 v1 : Z) (es : list (Z * Z)) :
  ordered ((t1, v1) :: es) = true ->
  ordered es = true /\
  match es with
  | [] => True
  | (t2, _) :: _ => t1 < t2
  end.
Proof.
  destruct es as [|[t2 v2] es]; [now split|].
  change (ordered ((t1, v1) :: (t2, v2) :: es))
    with ((t1 <? t2) && ordered ((t2, v2) :: es)).
  intros H. apply andb_prop in H. destruct H as [H1 H2].
  split; [exact H2 | now apply Z.ltb_lt].
Qed.

(** With the changes listed in order of time, [next_change] finds the
    first time after [t] at which the selected pins differ from what
    they were at [t], and finds none only if they never do. *)
Lemma next_change_spec (mask : Z) (es : list (Z * Z)) :
  forall v t,
    ordered es = true ->
    match next_change mask v es t with
    | Some te =>
        t < te /\
        (forall x, t <= x < te ->
           Z.land (level_at v es x) mask = Z.land (level_at v es t) mask) /\
        Z.land (level_at v es te) mask <> Z.land (level_at v es t) mask
    | None =>
        forall x, t <= x ->
          Z.land (level_at v es x) mask = Z.land (level_at v es t) mask
    end.
Proof.
  induction es as [|[t1 v1] es IH]; intros v t Ho; [now cbn|].
  destruct (ordered_tail t1 v1 es Ho) as [Ho' Hh].
  specialize (IH v1 t Ho').
  cbn [next_change].
  destruct (Z.ltb_spec t t1) as [L|L]; cbn [andb].
  - (* the change at t1 comes after t *)
    assert (Et : level_at v ((t1, v1) :: es) t = v)
      by (apply level_at_before; exact L).
    assert (E1 : level_at v1 es t = v1).
    { apply level_at_before. destruct es as [|[t2 v2] es]; [exact I | lia]. }
    rewrite Et. rewrite E1 in IH.
    destruct (Z.eqb_spec (Z.land v1 mask) (Z.land v mask)) as [E|E]; cbn [negb].
    + (* it leaves the selected pins as they were *)
      rewrite <- E.
      assert (C : forall x, level_at v ((t1, v1) :: es) x
                            = if t1 <=? x then level_at v1 es x else v)
        by reflexivity.
      destruct (next_change mask v1 es t) as [te|].
      * destruct IH as (Lt & Hs & Hd).
        assert (L1 : t1 <= te).
        { destruct (Z_lt_le_dec te t1) as [B|B]; [|exact B].
          exfalso. apply Hd. f_equal. apply level_at_before.
          destruct es as [|[t2 v2] es]; [exact I | lia]. }
        split; [exact Lt|]. split.
        -- intros x Hx. rewrite C.
           destruct (Z.leb_spec t1 x); [apply Hs; lia | now symmetry].
        -- rewrite C, (proj2 (Z.leb_le t1 te) L1). exact Hd.
      * intros x Hx. rewrite C.
        destruct (Z.leb_spec t1 x); [apply IH; lia | now symmetry].
    + (* it moves one of them: the sleep ends at t1 *)
      split; [exact L|]. split.
      * intros x Hx. f_equal. apply level_at_before. lia.
      * cbn [level_at]. rewrite Z.leb_refl.
        rewrite level_at_before; [exact E|].
        destruct es as [|[t2 v2] es]; [exact I | lia].
  - (* the change at t1 is past already *)
    assert (C : forall x, t <= x ->
                level_at v ((t1, v1) :: es) x = level_at v1 es x).
    { intros x Hx. cbn [level_at]. now rewrite (proj2 (Z.leb_le t1 x)) by lia. }
    rewrite (C t) by lia.
    destruct (next_change mask v1 es t) as [te|].
    + destruct IH as (Lt & Hs & Hd). split; [exact Lt|]. split.
      * intros x Hx. rewrite C by lia. apply Hs. exact Hx.
      * rewrite C by lia. exact Hd.
    + intros x Hx. rewrite C by lia. now apply IH.
Qed.

(** The sleep ends at the first change of a pin selected for wake-up. *)
Lemma sleep_mode_wakes (pins : signal) (s : mcu) (t_w : Z) :
  ordered (edges pins) = true ->
  now s < t_w ->
  (forall t, now s <= t < t_w ->
     Z.land (PINB pins t) (wake_mask (io s))
     = Z.land (PINB pins (now s)) (wake_mask (io s))) ->
  Z.land (PINB pins t_w) (wake_mask (io s))
  <> Z.land (PINB pins (now s)) (wake_mask (io s)) ->
  sleep_mode pins s = Some (mkMcu (io s) t_w (wave s ++ [(lit s, t_w - now s)])).
Proof.
  intros Ho Hl Hs Hd. unfold sleep_mode, PINB in *.
  pose proof (next_change_spec (wake_mask (io s)) (edges pins) (idle pins)
                (now s) Ho) as N.
  destruct (next_change _ _ _ _) as [te|].
  - destruct N as (Lt & Ns & Nd).
    assert (E : te = t_w).
    { destruct (Z.lt_trichotomy te t_w) as [B|[B|B]]; [|exact B|].
      - exfalso. apply Nd. apply Hs. lia.
      - exfalso. apply Hd. apply Ns. lia. }
    now subst te.
  - exfalso. apply Hd. apply N. lia.
Qed.

(** Without such a change ahead the sleep never ends. *)
Lemma sleep_mode_stays (pins : signal) (s : mcu) :
  ordered (edges pins) = true ->
  (forall t, now s <= t ->
     Z.land (PINB pins t) (wake_mask (io s))
     = Z.land (PINB pins (now s)) (wake_mask (io s))) ->
  sleep_mode pins s = None.
Proof.
  intros Ho Hs. unfold sleep_mode, PINB in *.
  pose proof (next_change_spec (wake_mask (io s)) (edges pins) (idle pins)
                (now s) Ho) as N.
  destruct (next_change _ _ _ _) as [te|]; [|reflexivity].
  destruct N as (Lt & _ & Nd). exfalso. apply Nd. apply Hs. lia.
Qed.

(** ** The pass *)

Lemma PCMSK_setup : PCMSK (io (setup reset)) = 0x3D.
Proof. vm_compute. reflexivity. Qed.

Lemma sleep_sel_setup : sleep_sel (io (setup reset)) = SLEEP_MODE_PWR_DOWN.
Proof. vm_compute. reflexivity. Qed.

Lemma lit_setup_io (s : mcu) : io s = io (setup reset) -> lit s = false.
Proof. intros H. unfold lit. rewrite H. vm_compute. reflexivity. Qed.

Lemma pressed_uint8 (pins : signal) (t : Z) :
  uint8 (pressed pins t) = pressed pins t.
Proof.
  unfold uint8, pressed. set (x := Z.lnot (PINB pins t)).
  assert (E : Z.land x 0x3D = Z.land x 0x3D mod 64).
  { rewrite <- (Z.land_ones _ 6) by lia. rewrite <- Z.land_assoc. reflexivity. }
  pose proof (Z.mod_pos_bound (Z.land x 0x3D) 64 ltac:(lia)) as B.
  apply Z.mod_small. lia.
Qed.

Lemma main_from (pins : signal) (n0 m : nat) (s : mcu) :
  main pins n0 = (AtSleep, s) ->
  main pins (n0 + m) = run pins m (AtSleep, s).
Proof. unfold main. intros H. now rewrite run_add, H. Qed.

Lemma scanned_facts (pins : signal) (s : mcu) (t_w : Z) :
  lit s = false ->
  lit (scanned pins s t_w) = false /\
  now (scanned pins s t_w) = first_check pins t_w /\
  wave (scanned pins s t_w)
  = wave s ++ [(false, t_w - now s); (false, 1000)] ++
    (if mapped (pressed pins (t_w + 1000))
     then frame_wave (key_of (pressed pins (t_w + 1000))) else []).
Proof.
  intros Hl. unfold scanned, first_check.
  assert (L2 : lit (_delay_ms 1 (woken s t_w)) = false) by exact Hl.
  assert (N2 : now (_delay_ms 1 (woken s t_w)) = t_w + 1000) by reflexivity.
  assert (W2 : wave (_delay_ms 1 (woken s t_w))
               = wave s ++ [(false, t_w - now s); (false, 1000)]).
  { unfold _delay_ms, woken. cbn [_delay_us wave]. unfold lit. cbn [io].
    unfold lit in Hl. rewrite Hl. now rewrite <- app_assoc. }
  destruct (mapped (pressed pins (t_w + 1000))).
  - split; [apply lit_sendCode|]. split.
    + rewrite now_sendCode_eq by apply key_of_range. rewrite N2.
      unfold frame_time. lia.
    + rewrite sendCode_wave, W2. now rewrite <- app_assoc.
  - unfold skip. split; [exact L2|]. split.
    + rewrite N2. lia.
    + rewrite W2. now rewrite app_nil_r.
Qed.

(** C8. The loop of [main] is a cycle without end, in this order.
    Whenever [main] is in [sleep_mode()] and the button pins (those of
    PCMSK) keep their level until [t_w] and change at [t_w], the
    processor sleeps exactly until [t_w], with the LED dark; then it
    waits the 1 ms debounce, scans, sends one frame if and only if the
    mask read is one of the five patterns, stays in the [while] sending
    one repeat code for each check that reads a line active, and at the
    first check that reads them clear is in [sleep_mode()] again, set
    up as before.  If from then on the button pins keep their level it
    stays there for ever, in the power-down mode, with nothing changing.
    From reset, either the clock of [main] passes any given time or
    [main] is asleep with no pin change ahead. *)
Theorem main_loop_cycle (pins : signal) (n0 : nat) (s : mcu) (t_w : Z) (k : nat) :
  ordered (edges pins) = true ->
  main pins n0 = (AtSleep, s) ->
  now s < t_w ->
  (forall t, now s <= t < t_w ->
     Z.land (PINB pins t) (PCMSK (io s))
     = Z.land (PINB pins (now s)) (PCMSK (io s))) ->
  Z.land (PINB pins t_w) (PCMSK (io s))
  <> Z.land (PINB pins (now s)) (PCMSK (io s)) ->
  (forall j, (j < k)%nat ->
     pressed pins (first_check pins t_w + Z.of_nat j * repeat_interval) <> 0) ->
  pressed pins (first_check pins t_w + Z.of_nat k * repeat_interval) = 0 ->
  sleep_mode pins s = Some (woken s t_w) /\
  main pins (n0 + 1) = (AtDebounce, woken s t_w) /\
  main pins (n0 + 2) = (AtScan, _delay_ms 1 (woken s t_w)) /\
  now (_delay_ms 1 (woken s t_w)) = t_w + 1000 /\
  main pins (n0 + 3) = (AtHeld, scanned pins s t_w) /\
  (forall j, (j <= k)%nat ->
     main pins (n0 + 3 + j) = (AtHeld, repeats j (scanned pins s t_w))) /\
  main pins (n0 + 4 + k) = (AtSleep, repeats k (scanned pins s t_w)) /\
  wave (repeats k (scanned pins s t_w))
  = wave s ++ [(false, t_w - now s); (false, 1000)] ++
    (if mapped (pressed pins (t_w + 1000))
     then frame_wave (key_of (pressed pins (t_w + 1000))) else []) ++
    concat (repeat repeat_cycle k) /\
  now (repeats k (scanned pins s t_w))
  = first_check pins t_w + Z.of_nat k * repeat_interval /\
  io (repeats k (scanned pins s t_w)) = io s /\
  sleep_sel (io s) = SLEEP_MODE_PWR_DOWN /\
  ((forall t, now (repeats k (scanned pins s t_w)) <= t ->
      Z.land (PINB pins t) (PCMSK (io s))
      = Z.land (PINB pins (now (repeats k (scanned pins s t_w)))) (PCMSK (io s))) ->
   forall n, main pins (n0 + 4 + k + n)
             = (AtSleep, repeats k (scanned pins s t_w))) /\
  (forall T, exists m,
      asleep pins (main pins m) \/ T <= now (snd (main pins m))).
Proof.
  intros Ho Hm Hl Hs Hd Hh Hz.
  set (s3 := scanned pins s t_w) in *.
  assert (Hio : io s = io (setup reset)).
  { pose proof (io_run pins n0 (AtSleep, setup reset) eq_refl) as H.
    fold (main pins n0) in H. now rewrite Hm in H. }
  assert (Hlit : lit s = false) by (apply lit_setup_io; exact Hio).
  assert (Hw : wake_mask (io s) = 0x3D) by (rewrite Hio; apply wake_mask_setup).
  assert (Hp : PCMSK (io s) = 0x3D) by (rewrite Hio; apply PCMSK_setup).
  rewrite Hp in *.
  (* the sleep ends at t_w *)
  assert (S1 : sleep_mode pins s = Some (woken s t_w)).
  { unfold woken. rewrite <- Hlit.
    apply sleep_mode_wakes; rewrite ?Hw; assumption. }
  assert (R1 : run pins 1 (AtSleep, s) = (AtDebounce, woken s t_w))
    by (cbn [run step]; now rewrite S1).
  assert (R2 : run pins 2 (AtSleep, s) = (AtScan, _delay_ms 1 (woken s t_w)))
    by (cbn [run step]; now rewrite S1).
  assert (R3 : run pins 3 (AtSleep, s) = (AtHeld, s3)).
  { change 3%nat with (2 + 1)%nat. rewrite run_add, R2. cbn [run step].
    change (now (_delay_ms 1 (woken s t_w))) with (t_w + 1000 * 1).
    change (1000 * 1) with 1000.
    now rewrite pressed_uint8, switch_mapped. }
  destruct (scanned_facts pins s t_w Hlit) as (L3 & N3 & W3).
  fold s3 in L3, N3, W3.
  (* the turns of the inner while *)
  assert (Rj : forall j, (j <= k)%nat ->
               run pins j (AtHeld, s3) = (AtHeld, repeats j s3)).
  { intros j Hj. apply held_run. intros i Hi. rewrite N3. apply Hh. lia. }
  assert (Nk : now (repeats k s3)
               = first_check pins t_w + Z.of_nat k * repeat_interval)
    by (rewrite now_repeats, N3; reflexivity).
  assert (Rk : run pins (4 + k) (AtSleep, s) = (AtSleep, repeats k s3)).
  { replace (4 + k)%nat with (3 + (k + 1))%nat by lia.
    rewrite run_add, R3, run_add, (Rj k) by lia.
    cbn [run step]. now rewrite Nk, (proj2 (Z.eqb_eq _ _) Hz). }
  assert (Mk : main pins (n0 + 4 + k) = (AtSleep, repeats k s3)).
  { rewrite <- Rk. replace (n0 + 4 + k)%nat with (n0 + (4 + k))%nat by lia.
    now apply main_from. }
  assert (Iok : io (repeats k s3) = io s).
  { pose proof (io_run pins (n0 + 4 + k) (AtSleep, setup reset) eq_refl) as H.
    fold (main pins (n0 + 4 + k)) in H. rewrite Mk in H. cbn [snd] in H.
    now rewrite H. }
  split; [exact S1|].
  split; [rewrite (main_from pins n0 1 s Hm); exact R1|].
  split; [rewrite (main_from pins n0 2 s Hm); exact R2|].
  split; [reflexivity|].
  split; [rewrite (main_from pins n0 3 s Hm); exact R3|].
  split.
  { intros j Hj. replace (n0 + 3 + j)%nat with (n0 + (3 + j))%nat by lia.
    rewrite (main_from pins n0 (3 + j) s Hm), run_add, R3. now apply Rj. }
  split; [exact Mk|].
  split; [rewrite wave_repeats, W3 by exact L3; now rewrite <- !app_assoc|].
  split; [exact Nk|].
  split; [exact Iok|].
  split; [rewrite Hio; apply sleep_sel_setup|].
  split.
  - intros Hidle n. unfold main in *. rewrite run_add, Mk.
    apply asleep_stays. apply sleep_mode_stays; [exact Ho|].
    rewrite Iok, Hw. exact Hidle.
  - intros T. destruct (never_ends pins AtSleep (setup reset) T) as [m H].
    exists m. exact H.
Qed.

(** ** The second pass of a sample run *)

Lemma PINB_two_presses_idle (t : Z) :
  200000 <= t < 500000 -> PINB two_presses t = 0x3D.
Proof.
  intros Ht. unfold PINB, two_presses. cbn [idle edges level_at].
  rewrite (proj2 (Z.leb_le 1000 t)) by lia.
  rewrite (proj2 (Z.leb_le 200000 t)) by lia.
  rewrite (proj2 (Z.leb_gt 500000 t)) by lia. reflexivity.
Defined.

Lemma now_after_first_press : now after_first_press = 287085.
Proof. vm_compute. reflexivity. Defined.

Lemma two_presses_quiet (t : Z) :
  now after_first_press <= t < 500000 ->
  Z.land (PINB two_presses t) (PCMSK (io after_first_press))
  = Z.land (PINB two_presses (now after_first_press)) (PCMSK (io after_first_press)).
Proof.
  rewrite now_after_first_press. intros Ht.
  rewrite (PINB_two_presses_idle t) by lia.
  rewrite (PINB_two_presses_idle 287085) by lia. reflexivity.
Defined.

Lemma two_presses_held (j : nat) :
  (j < 1)%nat ->
  pressed two_presses
    (first_check two_presses 500000 + Z.of_nat j * repeat_interval) <> 0.
Proof.
  intros Hj. destruct j as [|j]; [vm_compute; discriminate | lia].
Defined.

Lemma main_loop_cycle_witness :
  (ordered (edges two_presses) = true) /\
  (main two_presses 6 = (AtSleep, after_first_press)) /\
  (now after_first_press < 500000) /\
  ((forall t, now after_first_press <= t < 500000 ->
     Z.land (PINB two_presses t) (PCMSK (io after_first_press))
     = Z.land (PINB two_presses (now after_first_press)) (PCMSK (io after_first_press)))) /\
  (Z.land (PINB two_presses 500000) (PCMSK (io after_first_press))
  <> Z.land (PINB two_presses (now after_first_press)) (PCMSK (io after_first_press))) /\
  ((forall j, (j < 1)%nat ->
     pressed two_presses (first_check two_presses 500000 + Z.of_nat j * repeat_interval) <> 0)) /\
  (pressed two_presses (first_check two_presses 500000 + Z.of_nat 1 * repeat_interval) = 0) /\
  sleep_mode two_presses after_first_press = Some (woken after_first_press 500000) /\
  main two_presses (6 + 1) = (AtDebounce, woken after_first_press 500000) /\
  main two_presses (6 + 2) = (AtScan, _delay_ms 1 (woken after_first_press 500000)) /\
  now (_delay_ms 1 (woken after_first_press 500000)) = 500000 + 1000 /\
  main two_presses (6 + 3) = (AtHeld, scanned two_presses after_first_press 500000) /\
  (forall j, (j <= 1)%nat ->
     main two_presses (6 + 3 + j) = (AtHeld, repeats j (scanned two_presses after_first_press 500000))) /\
  main two_presses (6 + 4 + 1) = (AtSleep, repeats 1 (scanned two_presses after_first_press 500000)) /\
  wave (repeats 1 (scanned two_presses after_first_press 500000))
  = wave after_first_press ++ [(false, 500000 - now after_first_press); (false, 1000)] ++
    (if mapped (pressed two_presses (500000 + 1000))
     then frame_wave (key_of (pressed two_presses (500000 + 1000))) else []) ++
    concat (repeat repeat_cycle 1) /\
  now (repeats 1 (scanned two_presses after_first_press 500000))
  = first_check two_presses 500000 + Z.of_nat 1 * repeat_interval /\
  io (repeats 1 (scanned two_presses after_first_press 500000)) = io after_first_press /\
  sleep_sel (io after_first_press) = SLEEP_MODE_PWR_DOWN /\
  ((forall t, now (repeats 1 (scanned two_presses after_first_press 500000)) <= t ->
      Z.land (PINB two_presses t) (PCMSK (io after_first_press))
      = Z.land (PINB two_presses (now (repeats 1 (scanned two_presses after_first_press 500000)))) (PCMSK (io after_first_press))) ->
   forall n, main two_presses (6 + 4 + 1 + n)
             = (AtSleep, repeats 1 (scanned two_presses after_first_press 500000))) /\
  (forall T, exists m,
      asleep two_presses (main two_presses m) \/ T <= now (snd (main two_presses m))).
Proof.
  assert (H1 : ordered (edges two_presses) = true) by reflexivity.
  assert (H2 : main two_presses 6 = (AtSleep, after_first_press))
    by (vm_compute; reflexivity).
  assert (H3 : now after_first_press < 500000) by (vm_compute; reflexivity).
  assert (H5 : Z.land (PINB two_presses 500000) (PCMSK (io after_first_press))
               <> Z.land (PINB two_presses (now after_first_press))
                         (PCMSK (io after_first_press)))
    by (vm_compute; discriminate).
  assert (H7 : pressed two_presses
                 (first_check two_presses 500000 + Z.of_nat 1 * repeat_interval)
               = 0)
    by (vm_compute; reflexivity).
  split; [exact H1|]. split; [exact H2|]. split; [exact H3|].
  split; [exact two_presses_quiet|]. split; [exact H5|].
  split; [exact two_presses_held|]. split; [exact H7|].
  exact (main_loop_cycle two_presses 6 after_first_press 500000 1
           H1 H2 H3 two_presses_quiet H5 two_presses_held H7).
Defined.
